(** * generate_ics: spreadsheet rows to an iCalendar feed

    A shallow embedding of [src/generate_ics.py] and the properties of its
    row-to-event pipeline.

    Conventions of the embedding.
    - Python [str] values are [string]s: sequences of bytes holding the
      UTF-8 encoding of the text, so [.encode("utf-8")] is the identity on
      the model.  Character classes ([str.strip], [str.lower], the [\d] of
      the [strptime] patterns) are the ASCII ones.
    - A Python exception is a value [Raise e] of the [result] type; code
      that cannot raise is still written in that monad when the source
      calls something that can.
    - [datetime.fromisoformat] belongs to the interpreter and its accepted
      language differs between Python versions: it is a parameter of the
      development (a [Variable] of the sections below).
    - Cell values are the ones openpyxl hands out that the script
      distinguishes: [None], text, integers, booleans and native
      date / datetime / time values.  Floats are left out. *)

From Stdlib Require Import ZArith List Bool Ascii String Lia.
From Stdlib Require Import Numbers.DecimalString.
Import ListNotations.

Open Scope string_scope.
Open Scope Z_scope.

(* ================================================================== *)
(** ** Exceptions *)

Inductive exn : Type :=
  | ValueError
  | TypeError
  | IndexError
  | OverflowError
  | AttributeError.

Inductive result (A : Type) : Type :=
  | Ok (a : A)
  | Raise (e : exn).

Arguments Ok {A} a.
Arguments Raise {A} e.

Definition bind {A B : Type} (m : result A) (k : A -> result B) : result B :=
  match m with
  | Ok a => k a
  | Raise e => Raise e
  end.

Notation "x <- m ;; k" := (bind m (fun x => k))
  (at level 61, m at next level, right associativity).

(** [try: m  except ValueError: h] *)
Definition except_ValueError {A : Type} (m : result A) (h : result A) : result A :=
  match m with
  | Raise ValueError => h
  | other => other
  end.

(** [try: m  except Exception: h] *)
Definition except_Exception {A : Type} (m : result A) (h : result A) : result A :=
  match m with
  | Raise _ => h
  | other => other
  end.

Definition raises {A : Type} (m : result A) : bool :=
  match m with
  | Ok _ => false
  | Raise _ => true
  end.

(* ================================================================== *)
(** ** Text *)

Module Text.

Definition code (c : ascii) : Z := Z.of_N (N_of_ascii c).

(** [str.isspace] on one ASCII character. *)
Definition isspace (c : ascii) : bool :=
  let n := code c in
  ((9 <=? n) && (n <=? 13)) || ((28 <=? n) && (n <=? 32)).

Definition isdigit (c : ascii) : bool :=
  let n := code c in (48 <=? n) && (n <=? 57).

Definition lower_char (c : ascii) : ascii :=
  let n := code c in
  if (65 <=? n) && (n <=? 90) then ascii_of_N (Z.to_N (n + 32)) else c.

Fixpoint lower (s : string) : string :=
  match s with
  | EmptyString => EmptyString
  | String c s' => String (lower_char c) (lower s')
  end.

Fixpoint lstrip (s : string) : string :=
  match s with
  | EmptyString => EmptyString
  | String c s' => if isspace c then lstrip s' else s
  end.

(** [rstrip] keeps a character when it is not a space or when something
    is kept after it. *)
Fixpoint rstrip (s : string) : string :=
  match s with
  | EmptyString => EmptyString
  | String c s' =>
      match rstrip s' with
      | EmptyString => if isspace c then EmptyString else String c EmptyString
      | kept => String c kept
      end
  end.

Definition strip (s : string) : string := rstrip (lstrip s).

(** [sep.join(parts)] *)
Fixpoint join (sep : string) (parts : list string) : string :=
  match parts with
  | [] => ""
  | [p] => p
  | p :: ps => p ++ sep ++ join sep ps
  end.

Fixpoint drop (n : nat) (s : string) : string :=
  match n, s with
  | O, _ => s
  | S n', String _ s' => drop n' s'
  | S _, EmptyString => EmptyString
  end.

Fixpoint take (n : nat) (s : string) : string :=
  match n, s with
  | S n', String c s' => String c (take n' s')
  | _, _ => EmptyString
  end.

Fixpoint contains_char (c : ascii) (s : string) : bool :=
  match s with
  | EmptyString => false
  | String c' s' => Ascii.eqb c c' || contains_char c s'
  end.

(** [s.replace(old, new)] for a non-empty [old]: occurrences are replaced
    from the left and do not overlap.  [skip] counts the characters of an
    occurrence just replaced that are still to be passed over. *)
Fixpoint replace_from (old new : string) (skip : nat) (s : string) : string :=
  match s with
  | EmptyString => EmptyString
  | String c s' =>
      match skip with
      | S k => replace_from old new k s'
      | O =>
          if prefix old s
          then new ++ replace_from old new (Nat.pred (String.length old)) s'
          else String c (replace_from old new O s')
      end
  end.

(** With an empty [old] Python puts [new] before every character and at
    the end. *)
Fixpoint intersperse (new : string) (s : string) : string :=
  match s with
  | EmptyString => new
  | String c s' => new ++ String c (intersperse new s')
  end.

Definition replace (s old new : string) : string :=
  match old with
  | EmptyString => intersperse new s
  | _ => replace_from old new O s
  end.

(** [str(n)] of an integer. *)
Definition str_of_Z (z : Z) : string := NilZero.string_of_int (Z.to_int z).

Fixpoint zeros (n : nat) : string :=
  match n with
  | O => ""
  | S n' => String "0" (zeros n')
  end.

(** ["%0<w>d" % z] for [z >= 0]. *)
Definition zpad (w : nat) (z : Z) : string :=
  let s := str_of_Z z in
  zeros (w - String.length s) ++ s.

End Text.

(* ================================================================== *)
(** ** datetime.date, datetime.time, datetime.datetime *)

Record date : Type := mkdate { year : Z; month : Z; day : Z }.

Record daytime : Type :=
  mktime { hour : Z; minute : Z; second : Z; microsecond : Z }.

Record datetime : Type := mkdatetime { dt_date : date; dt_time : daytime }.

Definition is_leap (y : Z) : bool :=
  ((y mod 4 =? 0) && negb (y mod 100 =? 0)) || (y mod 400 =? 0).

Definition days_in_month (y m : Z) : Z :=
  if m =? 2 then (if is_leap y then 29 else 28)
  else if (m =? 4) || (m =? 6) || (m =? 9) || (m =? 11) then 30
  else 31.

Definition MINYEAR : Z := 1.
Definition MAXYEAR : Z := 9999.

Definition valid_date (d : date) : bool :=
  (MINYEAR <=? year d) && (year d <=? MAXYEAR) &&
  (1 <=? month d) && (month d <=? 12) &&
  (1 <=? day d) && (day d <=? days_in_month (year d) (month d)).

Definition valid_time (t : daytime) : bool :=
  (0 <=? hour t) && (hour t <=? 23) &&
  (0 <=? minute t) && (minute t <=? 59) &&
  (0 <=? second t) && (second t <=? 59) &&
  (0 <=? microsecond t) && (microsecond t <=? 999999).

(** The constructor [datetime(y, m, d, H, M, S)]: it validates. *)
Definition datetime_new (y m d H M S : Z) : result datetime :=
  let v := mkdatetime (mkdate y m d) (mktime H M S 0) in
  if valid_date (dt_date v) && valid_time (dt_time v) then Ok v
  else Raise ValueError.

(** [datetime(d.year, d.month, d.day, t.hour, t.minute, 0)], the last
    line of [parse_datetime]: the date with the hour and the minute. *)
Definition combine (d : date) (t : daytime) : result datetime :=
  datetime_new (year d) (month d) (day d) (hour t) (minute t) 0.

(** [t.replace(second=0, microsecond=0)] *)
Definition replace_second0 (t : daytime) : daytime :=
  mktime (hour t) (minute t) 0 0.

Definition midnight : daytime := mktime 0 0 0 0.

(** [d + timedelta(days=1)]; past 9999-12-31 Python raises OverflowError. *)
Definition add_one_day (d : date) : result date :=
  if day d <? days_in_month (year d) (month d)
  then Ok (mkdate (year d) (month d) (day d + 1))
  else if month d <? 12 then Ok (mkdate (year d) (month d + 1) 1)
  else if year d <? MAXYEAR then Ok (mkdate (year d + 1) 1 1)
  else Raise OverflowError.

Definition date_eqb (a b : date) : bool :=
  (year a =? year b) && (month a =? month b) && (day a =? day b).

(** [a < b] on dates. *)
Definition date_ltb (a b : date) : bool :=
  (year a <? year b) ||
  ((year a =? year b) &&
   ((month a <? month b) || ((month a =? month b) && (day a <? day b)))).

Definition date_max (a b : date) : date := if date_ltb a b then b else a.

Import Text.

(** [str(d)], that is [d.isoformat()]. *)
Definition str_date (d : date) : string :=
  zpad 4 (year d) ++ "-" ++ zpad 2 (month d) ++ "-" ++ zpad 2 (day d).

Definition str_time (t : daytime) : string :=
  zpad 2 (hour t) ++ ":" ++ zpad 2 (minute t) ++ ":" ++ zpad 2 (second t)
  ++ (if microsecond t =? 0 then "" else "." ++ zpad 6 (microsecond t)).

Definition str_datetime (v : datetime) : string :=
  str_date (dt_date v) ++ " " ++ str_time (dt_time v).

(** [fmt_date]: [d.strftime("%Y%m%d")].  The year is written on four
    digits, as the documentation of [strftime] has it; the C library of
    some platforms does not pad a year below 1000, and the two agree from
    the year 1000 on.  No property below depends on the digits. *)
Definition fmt_date (d : date) : string :=
  zpad 4 (year d) ++ zpad 2 (month d) ++ zpad 2 (day d).

(** [fmt_local]: [dt.strftime("%Y%m%dT%H%M%S")]. *)
Definition fmt_local (v : datetime) : string :=
  fmt_date (dt_date v) ++ "T" ++
  zpad 2 (hour (dt_time v)) ++ zpad 2 (minute (dt_time v)) ++
  zpad 2 (second (dt_time v)).

(* ================================================================== *)
(** ** datetime.strptime, for the directives the script uses

    [_strptime] turns the format into a regular expression, one capturing
    group of ordered alternatives per directive, matches it at the start
    of the text and refuses text that is left over.  The patterns below
    are those of [_strptime.TimeRE]. *)

Module Strptime.

Inductive cclass : Type :=
  | Digit                       (* \d *)
  | Range (lo hi : ascii)       (* [lo-hi] *)
  | Exactly (c : ascii).

Definition in_class (k : cclass) (c : ascii) : bool :=
  match k with
  | Digit => isdigit c
  | Range lo hi => (code lo <=? code c) && (code c <=? code hi)
  | Exactly x => Ascii.eqb x c
  end.

Inductive item : Type :=
  | Group (name : ascii) (alts : list (list cclass))
  | Literal (c : ascii).

(** One alternative against the start of [s]: the text it matched and
    what follows. *)
Fixpoint match_alt (a : list cclass) (s : string) : option (string * string) :=
  match a with
  | [] => Some ("", s)
  | k :: a' =>
      match s with
      | EmptyString => None
      | String c s' =>
          if in_class k c then
            match match_alt a' s' with
            | Some (g, r) => Some (String c g, r)
            | None => None
            end
          else None
      end
  end.

Fixpoint first_alt {A : Type} (f : list cclass -> option A)
    (alts : list (list cclass)) : option A :=
  match alts with
  | [] => None
  | a :: rest =>
      match f a with
      | Some x => Some x
      | None => first_alt f rest
      end
  end.

(** The first match in backtracking order: the captured groups and the
    unmatched rest. *)
Fixpoint match_items (its : list item) (s : string)
    : option (list (ascii * string) * string) :=
  match its with
  | [] => Some ([], s)
  | Literal c :: its' =>
      match s with
      | String c' s' => if Ascii.eqb c c' then match_items its' s' else None
      | EmptyString => None
      end
  | Group n alts :: its' =>
      first_alt
        (fun a =>
           match match_alt a s with
           | Some (g, s') =>
               match match_items its' s' with
               | Some (gs, r) => Some ((n, g) :: gs, r)
               | None => None
               end
           | None => None
           end)
        alts
  end.

Definition directive (c : ascii) : option item :=
  if Ascii.eqb c "Y" then
    Some (Group "Y" [[Digit; Digit; Digit; Digit]])
  else if Ascii.eqb c "m" then
    Some (Group "m" [[Exactly "1"; Range "0" "2"];
                     [Exactly "0"; Range "1" "9"];
                     [Range "1" "9"]])
  else if Ascii.eqb c "d" then
    Some (Group "d" [[Exactly "3"; Range "0" "1"];
                     [Range "1" "2"; Digit];
                     [Exactly "0"; Range "1" "9"];
                     [Range "1" "9"];
                     [Exactly " "; Range "1" "9"]])
  else if Ascii.eqb c "H" then
    Some (Group "H" [[Exactly "2"; Range "0" "3"];
                     [Range "0" "1"; Digit];
                     [Digit]])
  else if Ascii.eqb c "M" then
    Some (Group "M" [[Range "0" "5"; Digit]; [Digit]])
  else if Ascii.eqb c "S" then
    Some (Group "S" [[Exactly "6"; Range "0" "1"];
                     [Range "0" "5"; Digit];
                     [Digit]])
  else None.

(** [TimeRE.pattern]: a directive after each [%], the other characters
    as they are.  A directive outside the table, or a [%] at the end, is
    a ValueError. *)
Fixpoint pattern (fmt : string) : result (list item) :=
  match fmt with
  | EmptyString => Ok []
  | String "%" EmptyString => Raise ValueError
  | String "%" (String c rest) =>
      match directive c with
      | Some it => its <- pattern rest ;; Ok (it :: its)
      | None => Raise ValueError
      end
  | String c rest => its <- pattern rest ;; Ok (Literal c :: its)
  end.

(** [int(g)] of a captured group: digits, possibly after a blank. *)
Definition int_of_group (g : string) : Z :=
  (fix go (acc : Z) (s : string) : Z :=
     match s with
     | EmptyString => acc
     | String c s' =>
         if isdigit c then go (10 * acc + (code c - 48)) s' else go acc s'
     end) 0 g.

Fixpoint field (n : ascii) (dflt : Z) (gs : list (ascii * string)) : Z :=
  match gs with
  | [] => dflt
  | (k, g) :: gs' => if Ascii.eqb k n then int_of_group g else field n dflt gs'
  end.

(** [datetime.strptime(s, fmt)].  Missing fields default to 1900-01-01
    00:00:00; values the regular expression lets through but the
    constructor refuses (a 30th of February, second 60) are a ValueError
    as well. *)
Definition strptime (s fmt : string) : result datetime :=
  its <- pattern fmt ;;
  match match_items its s with
  | None => Raise ValueError
  | Some (gs, EmptyString) =>
      datetime_new (field "Y" 1900 gs) (field "m" 1 gs) (field "d" 1 gs)
                   (field "H" 0 gs) (field "M" 0 gs) (field "S" 0 gs)
  | Some (_, String _ _) => Raise ValueError
  end.

End Strptime.

Import Strptime.

(* ================================================================== *)
(** ** hashlib.sha1

    SHA-1 (FIPS 180-4) on a list of bytes, with 32-bit words held in [Z]
    and the wrap-around written out. *)

Module SHA1.

Definition mask32 : Z := 4294967295.

Definition w32 (x : Z) : Z := Z.land x mask32.

Definition rotl (n x : Z) : Z :=
  w32 (Z.lor (Z.shiftl x n) (Z.shiftr x (32 - n))).

Definition bytes_of_string (s : string) : list Z :=
  map code (list_ascii_of_string s).

(** The [n] low bytes of [x], most significant first. *)
Definition be_bytes (n : nat) (x : Z) : list Z :=
  map (fun i => Z.land (Z.shiftr x (8 * Z.of_nat i)) 255) (rev (seq 0 n)).

(** Padding: a one bit, zeros up to 56 modulo 64, the bit length on
    eight bytes. *)
Definition pad (msg : list Z) : list Z :=
  let l := Z.of_nat (List.length msg) in
  msg ++ [128] ++ repeat 0 (Z.to_nat ((55 - l) mod 64)) ++ be_bytes 8 (8 * l).

Fixpoint words (bs : list Z) : list Z :=
  match bs with
  | b0 :: b1 :: b2 :: b3 :: rest =>
      Z.lor (Z.shiftl b0 24) (Z.lor (Z.shiftl b1 16) (Z.lor (Z.shiftl b2 8) b3))
      :: words rest
  | _ => []
  end.

Fixpoint blocks (fuel : nat) (ws : list Z) : list (list Z) :=
  match fuel, ws with
  | S fuel', _ :: _ => firstn 16 ws :: blocks fuel' (skipn 16 ws)
  | _, _ => []
  end.

Record regs : Type := mkregs { ra : Z; rb : Z; rc : Z; rd : Z; re : Z }.

Definition init : regs :=
  mkregs 0x67452301 0xEFCDAB89 0x98BADCFE 0x10325476 0xC3D2E1F0.

Definition f (t : nat) (b c d : Z) : Z :=
  if (t <? 20)%nat then Z.lor (Z.land b c) (Z.land (Z.lxor b mask32) d)
  else if (t <? 40)%nat then Z.lxor (Z.lxor b c) d
  else if (t <? 60)%nat then
    Z.lor (Z.lor (Z.land b c) (Z.land b d)) (Z.land c d)
  else Z.lxor (Z.lxor b c) d.

Definition K (t : nat) : Z :=
  if (t <? 20)%nat then 0x5A827999
  else if (t <? 40)%nat then 0x6ED9EBA1
  else if (t <? 60)%nat then 0x8F1BBCDC
  else 0xCA62C1D6.

(** [n] rounds from round [t]; [ws] holds the sixteen schedule words
    [W t .. W (t+15)]. *)
Fixpoint rounds (n t : nat) (ws : list Z) (r : regs) : regs :=
  match n with
  | O => r
  | S n' =>
      let wt := nth 0 ws 0 in
      let tmp := w32 (rotl 5 (ra r) + f t (rb r) (rc r) (rd r) + re r + K t + wt) in
      let wnew :=
        rotl 1 (Z.lxor (Z.lxor (Z.lxor (nth 13 ws 0) (nth 8 ws 0)) (nth 2 ws 0)) wt) in
      rounds n' (S t) (tl ws ++ [wnew])
             (mkregs tmp (ra r) (rotl 30 (rb r)) (rc r) (rd r))
  end.

Definition compress (h : regs) (block : list Z) : regs :=
  let r := rounds 80 0 block h in
  mkregs (w32 (ra h + ra r)) (w32 (rb h + rb r)) (w32 (rc h + rc r))
         (w32 (rd h + rd r)) (w32 (re h + re r)).

Definition digest (msg : list Z) : regs :=
  let ws := words (pad msg) in
  fold_left compress (blocks (List.length ws) ws) init.

Definition hex_digit (n : Z) : ascii :=
  if n <? 10 then ascii_of_N (Z.to_N (48 + n)) else ascii_of_N (Z.to_N (87 + n)).

Definition hex_word (x : Z) : string :=
  string_of_list_ascii
    (map (fun i => hex_digit (Z.land (Z.shiftr x (4 * Z.of_nat i)) 15))
         (rev (seq 0 8))).

(** [hashlib.sha1(s.encode("utf-8")).hexdigest()] *)
Definition hexdigest (s : string) : string :=
  let r := digest (bytes_of_string s) in
  hex_word (ra r) ++ hex_word (rb r) ++ hex_word (rc r) ++ hex_word (rd r)
  ++ hex_word (re r).

End SHA1.

(* ================================================================== *)
(** ** Cell values *)

Inductive cell : Type :=
  | CNone
  | CStr (s : string)
  | CInt (n : Z)
  | CBool (b : bool)
  | CDate (d : date)
  | CDateTime (v : datetime)
  | CTime (t : daytime).

(** [str(v)] *)
Definition str (v : cell) : string :=
  match v with
  | CNone => "None"
  | CStr s => s
  | CInt n => str_of_Z n
  | CBool true => "True"
  | CBool false => "False"
  | CDate d => str_date d
  | CDateTime x => str_datetime x
  | CTime t => str_time t
  end.

(** [bool(v)]: what [if v], [not v] and [v or w] look at. *)
Definition truth (v : cell) : bool :=
  match v with
  | CNone => false
  | CStr s => negb (s =? "")%string
  | CInt n => negb (n =? 0)
  | CBool b => b
  | CDate _ | CDateTime _ | CTime _ => true
  end.

(** [a or b] *)
Definition por (a b : cell) : cell := if truth a then a else b.

(** [v in (None, "")] *)
Definition is_blank (v : cell) : bool :=
  match v with
  | CNone => true
  | CStr s => (s =? "")%string
  | _ => false
  end.

(** [isinstance(val, (datetime, date))] and [isinstance(val, (datetime, time))] *)
Definition is_native_date (v : cell) : bool :=
  match v with
  | CDate _ | CDateTime _ => true
  | _ => false
  end.

Definition is_native_time (v : cell) : bool :=
  match v with
  | CTime _ | CDateTime _ => true
  | _ => false
  end.

Definition is_some {A : Type} (o : option A) : bool :=
  match o with
  | Some _ => true
  | None => false
  end.

(** [o or dflt] on an optional date or time (both always true). *)
Definition or_else {A : Type} (o : option A) (dflt : A) : A :=
  match o with
  | Some a => a
  | None => dflt
  end.

(* ================================================================== *)
(** ** The coercions: _to_date, _to_time, parse_datetime, truthy *)

Section Coercions.

(** [datetime.fromisoformat]: [Ok v] when it returns [v], [Raise e] when
    it raises. *)
Variable fromisoformat : string -> result datetime.

(** [for fmt in fmts: try: return conv(strptime(s, fmt))
     except ValueError: pass], followed by [after]. *)
Fixpoint for_formats {A : Type} (fmts : list string) (s : string)
    (conv : datetime -> A) (after : result A) : result A :=
  match fmts with
  | [] => after
  | fmt :: rest =>
      except_ValueError (v <- strptime s fmt ;; Ok (conv v))
                        (for_formats rest s conv after)
  end.

Definition date_formats : list string := ["%Y-%m-%d"; "%d/%m/%Y"; "%m/%d/%Y"].
Definition time_formats : list string := ["%H:%M"; "%H:%M:%S"].

Definition _to_date (val : cell) : result (option date) :=
  if is_blank val then Ok None else
  match val with
  | CDateTime v => Ok (Some (dt_date v))
  | CDate d => Ok (Some d)
  | _ =>
      let s := strip (str val) in
      for_formats date_formats s (fun v => Some (dt_date v))
        (except_Exception (v <- fromisoformat s ;; Ok (Some (dt_date v)))
                          (Ok None))
  end.

Definition _to_time (val : cell) : result (option daytime) :=
  if is_blank val then Ok None else
  match val with
  | CDateTime v => Ok (Some (replace_second0 (dt_time v)))
  | CTime t => Ok (Some (replace_second0 t))
  | _ =>
      let s := strip (str val) in
      for_formats time_formats s (fun v => Some (dt_time v))
        (except_Exception
           (v <- fromisoformat s ;; Ok (Some (replace_second0 (dt_time v))))
           (Ok None))
  end.

Definition parse_datetime (d_val t_val : cell) : result (option datetime) :=
  d0 <- _to_date d_val ;;
  match d0 with
  | None => Ok None
  | Some d =>
      t0 <- _to_time t_val ;;
      v <- combine d (or_else t0 midnight) ;;
      Ok (Some v)
  end.

Definition truthy_words : list string :=
  ["true"; "yes"; "y"; "1"; "transparent"; "free"].

Definition truthy (val : cell) : bool :=
  match val with
  | CNone => false
  | _ => existsb (String.eqb (lower (strip (str val)))) truthy_words
  end.

End Coercions.

(** [make_uid(fields)] *)
Definition make_uid (fields : list cell) : string :=
  let h := take 16 (SHA1.hexdigest (join "|" (map str fields))) in
  h ++ "@youruni".

(* ================================================================== *)
(** ** main: headers, rows, event blocks *)

Definition nl : string := String (ascii_of_nat 10) "".

Definition DEFAULT_TZ : string := "Australia/Sydney".

Definition AUS_TZ_VTIMEZONE : string :=
  join nl
    ["BEGIN:VTIMEZONE";
     "TZID:Australia/Sydney";
     "BEGIN:STANDARD";
     "DTSTART:19700405T030000";
     "TZOFFSETFROM:+1100";
     "TZOFFSETTO:+1000";
     "TZNAME:AEST";
     "RRULE:FREQ=YEARLY;BYMONTH=4;BYDAY=1SU";
     "END:STANDARD";
     "BEGIN:DAYLIGHT";
     "DTSTART:19701004T020000";
     "TZOFFSETFROM:+1000";
     "TZOFFSETTO:+1100";
     "TZNAME:AEDT";
     "RRULE:FREQ=YEARLY;BYMONTH=10;BYDAY=1SU";
     "END:DAYLIGHT";
     "END:VTIMEZONE"] ++ nl.

(** The Python literal ["\\n"] of line 172: a backslash and the letter n. *)
Definition backslash_n : string :=
  String (ascii_of_nat 92) (String "n" "").

(** U+2014, the dash of the summary, in UTF-8. *)
Definition em_dash : string :=
  String (ascii_of_nat 226) (String (ascii_of_nat 128)
    (String (ascii_of_nat 148) "")).

(** [norm(s)] on a header cell: [(s or "").strip().lower()].  A header
    that is neither blank nor text has no [strip]. *)
Definition norm (h : cell) : result string :=
  match por h (CStr "") with
  | CStr s => Ok (lower (strip s))
  | _ => Raise AttributeError
  end.

Fixpoint map_result {A B : Type} (f : A -> result B) (l : list A)
    : result (list B) :=
  match l with
  | [] => Ok []
  | a :: l' => b <- f a ;; bs <- map_result f l' ;; Ok (b :: bs)
  end.

(** [hmap = { hdr_norm[i]: i for i in range(len(hdr_norm)) }] as the list
    of its insertions, the latest first: a repeated header keeps its last
    column. *)
Fixpoint hmap_from (i : Z) (hdr_norm : list string) (acc : list (string * Z))
    : list (string * Z) :=
  match hdr_norm with
  | [] => acc
  | h :: rest => hmap_from (i + 1) rest ((h, i) :: acc)
  end.

Definition hmap (hdr_norm : list string) : list (string * Z) :=
  hmap_from 0 hdr_norm [].

(** [hmap.get(key, -1)] *)
Fixpoint hmap_get (m : list (string * Z)) (key : string) : Z :=
  match m with
  | [] => -1
  | (k, i) :: m' => if (k =? key)%string then i else hmap_get m' key
  end.

(** [col]: the column of the first alias that names a header, else -1. *)
Fixpoint col (m : list (string * Z)) (aliases : list string) : Z :=
  match aliases with
  | [] => -1
  | a :: rest =>
      let j := hmap_get m (lower (strip a)) in
      if 0 <=? j then j else col m rest
  end.

Record cols : Type := mkcols {
  c_UID : Z; c_Crs : Z; c_Title : Z; c_Cat : Z;
  c_SDate : Z; c_STime : Z; c_EDate : Z; c_ETime : Z;
  c_TZ : Z; c_Loc : Z; c_Desc : Z; c_URL : Z; c_TRAN : Z
}.

Definition columns (hdr : list cell) : result cols :=
  hdr_norm <- map_result norm hdr ;;
  let m := hmap hdr_norm in
  Ok {| c_UID   := col m ["unique id"; "uid"];
        c_Crs   := col m ["course code"; "course"; "code"];
        c_Title := col m ["title"; "event title"; "headline"; "event headline"];
        c_Cat   := col m ["category"];
        c_SDate := col m ["start date"; "start"];
        c_STime := col m ["start time"];
        c_EDate := col m ["end date"];
        c_ETime := col m ["end time"];
        c_TZ    := col m ["timezone"; "tz"];
        c_Loc   := col m ["location"; "place"];
        c_Desc  := col m ["description"; "notes"; "note"];
        c_URL   := col m ["link"; "url"];
        c_TRAN  := col m ["transparent"; "transp"] |}.

Definition row : Type := list cell.

(** [r[j]] for [j >= 0] *)
Definition index (r : row) (j : Z) : result cell :=
  match nth_error r (Z.to_nat j) with
  | Some v => Ok v
  | None => Raise IndexError
  end.

(** [r[j] if j >= 0 else dflt] *)
Definition cell_at (r : row) (j : Z) (dflt : cell) : result cell :=
  if 0 <=? j then index r j else Ok dflt.

(** [str(r[j]).strip() if j >= 0 and r[j] is not None else dflt] *)
Definition text_at (r : row) (j : Z) (dflt : string) : result string :=
  if 0 <=? j then
    v <- index r j ;;
    match v with
    | CNone => Ok dflt
    | _ => Ok (strip (str v))
    end
  else Ok dflt.

(** The values lines 135-158 read from a row that is kept. *)
Record fields : Type := mkfields {
  title : string;
  sdate : cell;
  uid : string;
  course : string;
  cat : string;
  stime : cell;
  edate : cell;
  etime : cell;
  tz : string;
  location : string;
  desc : string;
  url : string;
  is_transparent : bool
}.

(** The state the loop updates: the output lines and the counter. *)
Record state : Type := mkstate { lines : list string; event_count : Z }.

Definition append (st : state) (l : string) : state :=
  mkstate (lines st ++ [l]) (event_count st).

Definition append_if (b : bool) (st : state) (l : string) : state :=
  if b then append st l else st.

Definition nonempty (s : string) : bool := negb (s =? "")%string.

Definition header_lines : list string :=
  ["BEGIN:VCALENDAR";
   "PRODID:-//YourUni//Class Feeds 1.0//EN";
   "VERSION:2.0";
   "CALSCALE:GREGORIAN";
   "METHOD:PUBLISH";
   strip AUS_TZ_VTIMEZONE].

Section Main.

Variable fromisoformat : string -> result datetime.

(** Lines 148-158. *)
Definition read_fields (c : cols) (r : row) (title0 : string) (sdate0 : cell)
    : result fields :=
  uid0 <- text_at r (c_UID c) "" ;;
  course0 <- text_at r (c_Crs c) "" ;;
  cat0 <- text_at r (c_Cat c) "" ;;
  stime0 <- cell_at r (c_STime c) (CStr "") ;;
  edate0 <- cell_at r (c_EDate c) (CStr "") ;;
  etime0 <- cell_at r (c_ETime c) (CStr "") ;;
  tz0 <- text_at r (c_TZ c) DEFAULT_TZ ;;
  location0 <- text_at r (c_Loc c) "" ;;
  desc0 <- text_at r (c_Desc c) "" ;;
  url0 <- text_at r (c_URL c) "" ;;
  tran0 <- (if 0 <=? c_TRAN c then v <- index r (c_TRAN c) ;; Ok (truthy v)
            else Ok false) ;;
  Ok (mkfields title0 sdate0 uid0 course0 cat0 stime0 edate0 etime0 tz0
               location0 desc0 url0 tran0).

(** Line 160: [not _to_time(stime) and not _to_time(etime)]. *)
Definition all_day (f : fields) : result bool :=
  ts <- _to_time fromisoformat (stime f) ;;
  if is_some ts then Ok false
  else te <- _to_time fromisoformat (etime f) ;; Ok (negb (is_some te)).

(** Lines 161-162. *)
Definition event_uid (f : fields) : string :=
  if nonempty (uid f) then uid f
  else make_uid [CStr (course f); CStr (title f); sdate f; edate f;
                 stime f; etime f; CStr (location f)].

(** Line 164. *)
Definition summary (f : fields) : string :=
  if nonempty (course f) then course f ++ " " ++ em_dash ++ " " ++ title f
  else title f.

(** Lines 175-178. *)
Definition categories (f : fields) : list string :=
  (if nonempty (course f) then [course f] else []) ++
  (if nonempty (cat f) then [cat f] else []) ++
  (if nonempty (location f) then [location f] else []).

(** Lines 166-179: the lines every kept row appends first. *)
Definition append_head (now_utc : string) (st : state) (f : fields) : state :=
  let st := append st "BEGIN:VEVENT" in
  let st := append st ("UID:" ++ event_uid f) in
  let st := append st ("DTSTAMP:" ++ now_utc) in
  let st := append st ("SUMMARY:" ++ summary f) in
  let st := append st ("TRANSP:" ++
                       (if is_transparent f then "TRANSPARENT" else "OPAQUE")) in
  let st := append_if (nonempty (location f)) st ("LOCATION:" ++ location f) in
  let st := append_if (nonempty (desc f)) st
              ("DESCRIPTION:" ++ replace (desc f) backslash_n backslash_n) in
  let st := append_if (nonempty (url f)) st ("URL:" ++ url f) in
  let cats := categories f in
  append_if (negb (Nat.eqb (List.length cats) 0)) st
            ("CATEGORIES:" ++ join "," cats).

(** Lines 181-201. *)
Definition append_times (st : state) (f : fields) (is_all_day : bool)
    : result state :=
  if is_all_day then
    start0 <- _to_date fromisoformat (sdate f) ;;
    end0 <- (if truth (edate f)
             then e <- _to_date fromisoformat (edate f) ;;
                  Ok (match e with Some d => Some d | None => start0 end)
             else Ok start0) ;;
    match start0, end0 with
    | Some start_d, Some end_d =>
        end_excl <- add_one_day end_d ;;
        let st := append st ("DTSTART;VALUE=DATE:" ++ fmt_date start_d) in
        let st := append st ("DTEND;VALUE=DATE:" ++ fmt_date end_excl) in
        let st := append st "END:VEVENT" in
        Ok (mkstate (lines st) (event_count st + 1))
    | _, _ => Raise TypeError
    end
  else
    dt_start <- parse_datetime fromisoformat (sdate f) (stime f) ;;
    dt_end <- parse_datetime fromisoformat
                (por (edate f) (sdate f))
                (por (por (etime f) (stime f)) (CStr "00:00")) ;;
    match dt_start, dt_end with
    | Some s, Some e =>
        let st := append st ("DTSTART;TZID=" ++ tz f ++ ":" ++ fmt_local s) in
        let st := append st ("DTEND;TZID=" ++ tz f ++ ":" ++ fmt_local e) in
        let st := append st "END:VEVENT" in
        Ok (mkstate (lines st) (event_count st + 1))
    | _, _ => Ok (append st "END:VEVENT")
    end.

(** Lines 135-136 and 143. *)
Definition row_title (c : cols) (r : row) : result string :=
  text_at r (c_Title c) "".

Definition row_sdate (c : cols) (r : row) : result cell :=
  cell_at r (c_SDate c) CNone.

(** Lines 131-158: [None] where the loop says [continue], the values
    read from the row where it goes on to write an event. *)
Definition accept (c : cols) (r : row) : result (option fields) :=
  if forallb is_blank r then Ok None else
  title0 <- row_title c r ;;
  if negb (nonempty title0) then Ok None else
  sdate0 <- row_sdate c r ;;
  sd <- _to_date fromisoformat sdate0 ;;
  if negb (is_some sd) then Ok None else
  f <- read_fields c r title0 sdate0 ;;
  Ok (Some f).

(** One turn of the loop of lines 129-201. *)
Definition process_row (c : cols) (now_utc : string) (st : state) (r : row)
    : result state :=
  a <- accept c r ;;
  match a with
  | None => Ok st
  | Some f =>
      is_all_day <- all_day f ;;
      append_times (append_head now_utc st f) f is_all_day
  end.

Fixpoint process_rows (c : cols) (now_utc : string) (st : state)
    (rows : list row) : result state :=
  match rows with
  | [] => Ok st
  | r :: rest =>
      st' <- process_row c now_utc st r ;;
      process_rows c now_utc st' rest
  end.

Definition initial : state := mkstate header_lines 0.

(** The lines and the count [main] ends with, from the header row, the
    data rows and the time stamp of the run. *)
Definition run (c : cols) (now_utc : string) (rows : list row) : result state :=
  process_rows c now_utc initial rows.

(** What [main] writes: ["\n".join(lines)]. *)
Definition document (st : state) : string := join nl (lines st).

Definition main (hdr : row) (now_utc : string) (rows : list row)
    : result (string * Z) :=
  c <- columns hdr ;;
  st <- run c now_utc rows ;;
  Ok (document st, event_count st).

End Main.

(* ================================================================== *)
(** ** Reading the output *)

(** The lines [append_head] adds for a row. *)
Definition head_lines (now_utc : string) (f : fields) : list string :=
  ["BEGIN:VEVENT";
   "UID:" ++ event_uid f;
   "DTSTAMP:" ++ now_utc;
   "SUMMARY:" ++ summary f;
   "TRANSP:" ++ (if is_transparent f then "TRANSPARENT" else "OPAQUE")]
  ++ (if nonempty (location f) then ["LOCATION:" ++ location f] else [])
  ++ (if nonempty (desc f)
      then ["DESCRIPTION:" ++ replace (desc f) backslash_n backslash_n]
      else [])
  ++ (if nonempty (url f) then ["URL:" ++ url f] else [])
  ++ (if negb (Nat.eqb (List.length (categories f)) 0)
      then ["CATEGORIES:" ++ join "," (categories f)]
      else []).

(** Two lines of two runs, stamped [now1] and [now2]: the same line, or
    the DTSTAMP line of each run. *)
Definition same_but_stamp (now1 now2 : string) (l1 l2 : string) : Prop :=
  l1 = l2 \/ (l1 = "DTSTAMP:" ++ now1 /\ l2 = "DTSTAMP:" ++ now2).

(** Two outcomes of [run] that differ at most in the DTSTAMP lines. *)
Definition same_run_but_stamp (now1 now2 : string) (a b : result state) : Prop :=
  match a, b with
  | Ok s1, Ok s2 =>
      event_count s1 = event_count s2 /\
      Forall2 (same_but_stamp now1 now2) (lines s1) (lines s2)
  | Raise e1, Raise e2 => e1 = e2
  | _, _ => False
  end.

(** The state before any line is written, and a state extended by what
    a row appends to the empty one. *)
Definition empty_state : state := mkstate [] 0.

Definition extend (st t : state) : state :=
  mkstate (lines st ++ lines t) (event_count st + event_count t).

Definition extend_result (st : state) (m : result state) : result state :=
  match m with
  | Ok t => Ok (extend st t)
  | Raise e => Raise e
  end.

(** The states of two runs, stamped [now1] and [now2], after the same
    rows. *)
Definition same_state_but_stamp (now1 now2 : string) (s1 s2 : state) : Prop :=
  event_count s1 = event_count s2 /\
  Forall2 (same_but_stamp now1 now2) (lines s1) (lines s2).

(** Two outcomes of [main] that differ at most in the DTSTAMP lines of
    the documents. *)
Definition same_main_but_stamp (now1 now2 : string)
    (a b : result (string * Z)) : Prop :=
  match a, b with
  | Ok (doc1, n1), Ok (doc2, n2) =>
      n1 = n2 /\
      exists l1 l2,
        doc1 = join nl l1 /\ doc2 = join nl l2 /\
        Forall2 (same_but_stamp now1 now2) l1 l2
  | Raise e1, Raise e2 => e1 = e2
  | _, _ => False
  end.

(** The normalized value of a cell: its date or time when it has one. *)
Definition parsed_date (fromisoformat : string -> result datetime) (v : cell)
    : option date :=
  match _to_date fromisoformat v with
  | Ok o => o
  | Raise _ => None
  end.

Definition parsed_time (fromisoformat : string -> result datetime) (v : cell)
    : option daytime :=
  match _to_time fromisoformat v with
  | Ok o => o
  | Raise _ => None
  end.

(** The end boundary of an all-day event in the words of the data model:
    one day after the later of the explicit end date and the start date.
    Written from the specification, to be compared with [append_times]. *)
Definition stated_all_day_end (fromisoformat : string -> result datetime)
    (f : fields) : result date :=
  match parsed_date fromisoformat (sdate f) with
  | Some start_d =>
      add_one_day
        (date_max (or_else (parsed_date fromisoformat (edate f)) start_d) start_d)
  | None => Raise TypeError
  end.

(** The end instant of a timed event in the words of the data model: the
    end date, else the start date, with the end time, else the start
    time, else midnight, over the normalized values.  Written from the
    specification, to be compared with [append_times]. *)
Definition stated_end_instant (fromisoformat : string -> result datetime)
    (f : fields) : result datetime :=
  match parsed_date fromisoformat (sdate f) with
  | Some start_d =>
      combine
        (or_else (parsed_date fromisoformat (edate f)) start_d)
        (or_else (parsed_time fromisoformat (etime f))
           (or_else (parsed_time fromisoformat (stime f)) midnight))
  | None => Raise TypeError
  end.

(* ================================================================== *)
(** ** A worksheet for the examples *)

Module Examples.

(** An instance of [fromisoformat] for the examples: the extended
    calendar form [YYYY-MM-DD] and nothing else.  The interpreter's
    function accepts more forms; on the texts the examples reach it with
    (["tbd"], ["not a date"]) both refuse. *)
Definition fromisoformat_ymd (s : string) : result datetime :=
  match match_items [Group "Y" [[Digit; Digit; Digit; Digit]]; Literal "-";
                     Group "m" [[Digit; Digit]]; Literal "-";
                     Group "d" [[Digit; Digit]]] s with
  | Some (gs, EmptyString) =>
      datetime_new (field "Y" 0 gs) (field "m" 0 gs) (field "d" 0 gs) 0 0 0
  | _ => Raise ValueError
  end.

Definition header : row :=
  [CStr "Course"; CStr "Title"; CStr "Start Date"; CStr "Start Time";
   CStr "End Date"; CStr "End Time"; CStr "Location"; CStr "Description"].

(** The columns [columns header] finds. *)
Definition c : cols :=
  {| c_UID := -1; c_Crs := 0; c_Title := 1; c_Cat := -1;
     c_SDate := 2; c_STime := 3; c_EDate := 4; c_ETime := 5;
     c_TZ := -1; c_Loc := 6; c_Desc := 7; c_URL := -1; c_TRAN := -1 |}.

Definition now : string := "20240101T000000Z".

Definition d_4_march : date := mkdate 2024 3 4.
Definition d_10_march : date := mkdate 2024 3 10.

Definition lecture : row :=
  [CStr "CS101"; CStr "Intro Lecture"; CDate d_4_march; CNone; CNone; CNone;
   CNone; CNone].

Definition lab : row :=
  [CNone; CStr "Lab"; CDate d_4_march; CStr "14:00"; CNone; CStr "16:00";
   CNone; CNone].

Definition blank_title : row :=
  [CStr "CS101"; CStr "   "; CDate d_4_march; CNone; CNone; CNone; CNone; CNone].

Definition bad_start_date : row :=
  [CNone; CStr "Lab"; CStr "not a date"; CNone; CNone; CNone; CNone; CNone].

(** A timed row whose end date is a text no parser reads. *)
Definition lab_bad_end_date : row :=
  [CNone; CStr "Lab"; CDate d_4_march; CStr "14:00"; CStr "tbd"; CStr "16:00";
   CNone; CNone].

(** A timed row whose end time is a text no parser reads. *)
Definition lab_bad_end_time : row :=
  [CNone; CStr "Lab"; CDate d_4_march; CStr "14:00"; CNone; CStr "tbd";
   CNone; CNone].

(** An all-day row that ends before it starts. *)
Definition camp_backwards : row :=
  [CNone; CStr "Camp"; CDate d_10_march; CNone; CDate d_4_march; CNone;
   CNone; CNone].

(** A description of two lines. *)
Definition two_lines : string := "Bring laptop" ++ nl ++ "Room may change".

Definition lab_with_notes : row :=
  [CNone; CStr "Lab"; CDate d_4_march; CNone; CNone; CNone; CNone;
   CStr two_lines].

(** The same day as a native date, as ISO text, as day-first text and as
    a native datetime. *)
Definition talk (start : cell) : row :=
  [CNone; CStr "Talk"; start; CNone; CNone; CNone; CNone; CNone].

Definition talk_native : row := talk (CDate d_4_march).
Definition talk_iso_text : row := talk (CStr "2024-03-04").
Definition talk_day_first : row := talk (CStr "04/03/2024").
Definition talk_datetime : row :=
  talk (CDateTime (mkdatetime d_4_march midnight)).

End Examples.

(* ================================================================== *)
(** ** Well-formed sheets and counting lines *)

Definition valid_datetime (v : datetime) : bool :=
  valid_date (dt_date v) && valid_time (dt_time v).

(** A native cell holds a value its constructor accepts. *)
Definition valid_cell (v : cell) : bool :=
  match v with
  | CDate d => valid_date d
  | CDateTime x => valid_datetime x
  | CTime t => valid_time t
  | _ => true
  end.

(** A header cell [norm] accepts: text, or a value that is false. *)
Definition header_cell_ok (h : cell) : bool :=
  match h with
  | CStr _ => true
  | _ => negb (truth h)
  end.

(** The thirteen column numbers, in the order of lines 101-113, and the
    aliases each was looked up with. *)
Definition cols_list (c : cols) : list Z :=
  [c_UID c; c_Crs c; c_Title c; c_Cat c; c_SDate c; c_STime c; c_EDate c;
   c_ETime c; c_TZ c; c_Loc c; c_Desc c; c_URL c; c_TRAN c].

Definition alias_table : list (list string) :=
  [["unique id"; "uid"];
   ["course code"; "course"; "code"];
   ["title"; "event title"; "headline"; "event headline"];
   ["category"];
   ["start date"; "start"];
   ["start time"];
   ["end date"];
   ["end time"];
   ["timezone"; "tz"];
   ["location"; "place"];
   ["description"; "notes"; "note"];
   ["link"; "url"];
   ["transparent"; "transp"]].

(** Every column number is below the width [n]. *)
Definition cols_within (c : cols) (n : nat) : Prop :=
  Forall (fun j => j < Z.of_nat n) (cols_list c).

(** One looked-up column against the header row: absent, with no alias
    among the normalized headers, or the last column whose normalized
    header is the first alias present. *)
Definition column_found (hdr : row) (j : Z) (aliases : list string) : Prop :=
  (j = -1 /\
   forall a k h, In a aliases -> nth_error hdr k = Some h ->
     norm h <> Ok (lower (strip a))) \/
  (exists k pre a post h,
     j = Z.of_nat k /\ (k < List.length hdr)%nat /\
     aliases = (pre ++ a :: post)%list /\
     nth_error hdr k = Some h /\ norm h = Ok (lower (strip a)) /\
     (forall k' h', (k < k')%nat -> nth_error hdr k' = Some h' ->
        norm h' <> Ok (lower (strip a))) /\
     (forall b k' h', In b pre -> nth_error hdr k' = Some h' ->
        norm h' <> Ok (lower (strip b)))).

(** The number of lines a test accepts. *)
Definition count_lines (p : string -> bool) (l : list string) : Z :=
  Z.of_nat (List.length (filter p l)).

Definition is_begin_event (l : string) : bool := (l =? "BEGIN:VEVENT")%string.
Definition is_end_event (l : string) : bool := (l =? "END:VEVENT")%string.
Definition is_dtstart (l : string) : bool := prefix "DTSTART;" l.
Definition is_dtend (l : string) : bool := prefix "DTEND;" l.

Fixpoint all_chars (p : ascii -> bool) (s : string) : bool :=
  match s with
  | EmptyString => true
  | String c s' => p c && all_chars p s'
  end.

Definition is_hex_digit (c : ascii) : bool :=
  isdigit c || ((97 <=? code c) && (code c <=? 102)).

(** The pattern of ["%m-%d"], the tail of the pattern of ["%Y-%m-%d"]. *)
Definition month_day_items : list item :=
  match pattern "%m-%d" with
  | Ok its => its
  | Raise _ => []
  end.

(** [zpad 4 z] is four digits that read back as [z]. *)
Definition four_digits_ok (z : Z) : bool :=
  Nat.eqb (String.length (zpad 4 z)) 4 && all_chars isdigit (zpad 4 z) &&
  (int_of_group (zpad 4 z) =? z).

Definition two_digits_ok (z : Z) : bool :=
  Nat.eqb (String.length (zpad 2 z)) 2 && all_chars isdigit (zpad 2 z).

(** The month and the day, padded and joined by a dash, match
    [month_day_items] and read back as they were. *)
Definition month_day_ok (m d : Z) : bool :=
  match match_items month_day_items (zpad 2 m ++ "-" ++ zpad 2 d) with
  | Some (gs, EmptyString) =>
      (field "m" 1 gs =? m) && (field "d" 1 gs =? d) &&
      (field "H" 0 gs =? 0) && (field "M" 0 gs =? 0) && (field "S" 0 gs =? 0) &&
      (field "Y" 1900 gs =? 1900)
  | _ => false
  end.

Definition below (n : nat) : list Z := map Z.of_nat (seq 0 n).


(* ================================================================== *)
(** * Properties *)

(** ** The result monad *)

Lemma bind_Ok {A B : Type} (m : result A) (k : A -> result B) (b : B) :
  bind m k = Ok b -> exists a, m = Ok a /\ k a = Ok b.
Proof.
  destruct m as [a|e]; simpl; intro H; [eauto | discriminate].
Qed.

Lemma except_Exception_Ok {A : Type} (m : result A) (a : A) :
  exists x, except_Exception m (Ok a) = Ok x.
Proof.
  destruct m; simpl; eauto.
Qed.

(** ** strptime raises nothing but ValueError *)

Lemma datetime_new_raises y m d H M S e :
  datetime_new y m d H M S = Raise e -> e = ValueError.
Proof.
  unfold datetime_new.
  destruct (valid_date _ && valid_time _); congruence.
Qed.

Lemma pattern_raises_bounded (n : nat) :
  forall fmt e, (String.length fmt <= n)%nat ->
    pattern fmt = Raise e -> e = ValueError.
Proof.
  induction n as [|n IH]; intros fmt e Hlen H.
  - destruct fmt; simpl in *; [discriminate | lia].
  - destruct fmt as [|c rest]; [discriminate|].
    simpl in Hlen.
    assert (Hrest : forall r e', (String.length r <= String.length rest)%nat ->
                      pattern r = Raise e' -> e' = ValueError).
    { intros r e' Hr. apply IH. lia. }
    assert (Hlit : (its <- pattern rest ;; Ok (Literal c :: its)) = Raise e ->
                   e = ValueError).
    { destruct (pattern rest) eqn:Hp; simpl; [discriminate|].
      intro Hq; inversion Hq; subst. eapply Hrest; eauto. }
    destruct c as [b0 b1 b2 b3 b4 b5 b6 b7].
    destruct b0, b1, b2, b3, b4, b5, b6, b7; try (exact (Hlit H)).
    (* the character is [%] *)
    destruct rest as [|c' rest']; simpl in H; [congruence|].
    destruct (directive c'); [|congruence].
    destruct (pattern rest') eqn:Hp; simpl in H; [discriminate|].
    inversion H; subst. eapply Hrest; [|exact Hp]. simpl. lia.
Qed.

Lemma strptime_raises s fmt e :
  strptime s fmt = Raise e -> e = ValueError.
Proof.
  unfold strptime.
  destruct (pattern fmt) as [its|e'] eqn:Hp; simpl.
  - destruct (match_items its s) as [[gs [|c r]]|].
    + apply datetime_new_raises.
    + congruence.
    + congruence.
  - intro H; inversion H; subst.
    eapply pattern_raises_bounded; [reflexivity | exact Hp].
Qed.

Lemma for_formats_Ok {A : Type} fmts s (conv : datetime -> A) after :
  (exists a, after = Ok a) ->
  exists a, for_formats fmts s conv after = Ok a.
Proof.
  intro Hafter.
  induction fmts as [|fmt rest IH]; simpl; [assumption|].
  destruct (strptime s fmt) as [v|e] eqn:Hs; simpl; [eauto|].
  apply strptime_raises in Hs. subst e. exact IH.
Qed.

Section CoercionFacts.

Variable fromisoformat : string -> result datetime.

Lemma to_date_Ok (v : cell) : exists o, _to_date fromisoformat v = Ok o.
Proof.
  unfold _to_date.
  destruct (is_blank v); [eauto|].
  destruct v; eauto; apply for_formats_Ok; apply except_Exception_Ok.
Qed.

Lemma to_time_Ok (v : cell) : exists o, _to_time fromisoformat v = Ok o.
Proof.
  unfold _to_time.
  destruct (is_blank v); [eauto|].
  destruct v; eauto; apply for_formats_Ok; apply except_Exception_Ok.
Qed.

End CoercionFacts.

(** ** The patterns: what a match says about the text *)

Lemma match_alt_split a : forall s g r,
  match_alt a s = Some (g, r) ->
  s = (g ++ r)%string /\ String.length g = List.length a.
Proof.
  induction a as [|k a IH]; intros s g r H; simpl in H.
  - inversion H; subst. split; reflexivity.
  - destruct s as [|c s']; [discriminate|].
    destruct (in_class k c); [|discriminate].
    destruct (match_alt a s') as [[g' r']|] eqn:Hm; [|discriminate].
    inversion H; subst. destruct (IH _ _ _ Hm) as [-> Hl].
    split; simpl; congruence.
Qed.

Lemma match_alt_class a : forall s g r,
  match_alt a s = Some (g, r) ->
  forall i k, nth_error a i = Some k ->
    exists c, String.get i s = Some c /\ in_class k c = true.
Proof.
  induction a as [|k0 a IH]; intros s g r H i k Hi; simpl in H.
  - destruct i; discriminate.
  - destruct s as [|c s']; [discriminate|].
    destruct (in_class k0 c) eqn:Hc; [|discriminate].
    destruct (match_alt a s') as [[g' r']|] eqn:Hm; [|discriminate].
    destruct i as [|i]; simpl in Hi.
    + inversion Hi; subst. exists c. split; [reflexivity | assumption].
    + simpl. eapply IH; eauto.
Qed.

Lemma first_alt_Some {A : Type} (f : list cclass -> option A) alts x :
  first_alt f alts = Some x -> exists a, In a alts /\ f a = Some x.
Proof.
  induction alts as [|a rest IH]; simpl; [discriminate|].
  destruct (f a) eqn:Hf.
  - intro H; inversion H; subst. eauto.
  - intro H. destruct (IH H) as [a' [Hin Ha']]. eauto.
Qed.

Lemma get_after_prefix g : forall c t,
  String.get (String.length g) (g ++ String c t) = Some c.
Proof.
  induction g as [|x g IH]; intros c t; simpl; [reflexivity | apply IH].
Qed.

(** A directive followed by a literal: the literal stands right after
    one of the directive's alternatives. *)
Lemma group_then_literal n alts c its s gs r :
  match_items (Group n alts :: Literal c :: its) s = Some (gs, r) ->
  exists a, In a alts /\ String.get (List.length a) s = Some c.
Proof.
  intro H. cbn [match_items] in H.
  apply first_alt_Some in H. destruct H as [a [Hin Ha]].
  exists a. split; [assumption|].
  destruct (match_alt a s) as [[g s']|] eqn:Hm; [|discriminate].
  destruct (match_alt_split _ _ _ _ Hm) as [-> Hl].
  destruct s' as [|c' s'']; [discriminate|].
  destruct (Ascii.eqb c c') eqn:Hc; [|discriminate].
  apply Ascii.eqb_eq in Hc. subst c'.
  rewrite <- Hl. apply get_after_prefix.
Qed.

Lemma group_first n alts its s gs r :
  match_items (Group n alts :: its) s = Some (gs, r) ->
  exists a g s', In a alts /\ match_alt a s = Some (g, s').
Proof.
  intro H. cbn [match_items] in H.
  apply first_alt_Some in H. destruct H as [a [Hin Ha]].
  destruct (match_alt a s) as [[g s']|] eqn:Hm; [|discriminate].
  eauto.
Qed.

Lemma strptime_Ok_matches s fmt v :
  strptime s fmt = Ok v ->
  exists its gs, pattern fmt = Ok its /\ match_items its s = Some (gs, "").
Proof.
  unfold strptime. intro H.
  apply bind_Ok in H. destruct H as [its [Hp H]]. cbv beta in H.
  destruct (match_items its s) as [[gs [|c r]]|] eqn:Hm; try discriminate.
  eauto.
Qed.

(** A text with a slash in second or third place does not start with
    four digits. *)
Lemma year_first_excludes_slash s v :
  strptime s "%Y-%m-%d" = Ok v ->
  String.get 1 s <> Some "/"%char /\ String.get 2 s <> Some "/"%char.
Proof.
  intro H. apply strptime_Ok_matches in H.
  destruct H as [its [gs [Hp Hm]]].
  cbn in Hp. inversion Hp; subst its. clear Hp.
  apply group_first in Hm. destruct Hm as [a [g [s' [Hin Hm]]]].
  destruct Hin as [<-|[]].
  split; intro Hs.
  - destruct (match_alt_class _ _ _ _ Hm 1%nat Digit eq_refl) as [c [Hc Hd]].
    rewrite Hs in Hc. inversion Hc; subst c. discriminate.
  - destruct (match_alt_class _ _ _ _ Hm 2%nat Digit eq_refl) as [c [Hc Hd]].
    rewrite Hs in Hc. inversion Hc; subst c. discriminate.
Qed.

Lemma slash_first_has_slash s fmt v :
  fmt = "%d/%m/%Y" \/ fmt = "%m/%d/%Y" ->
  strptime s fmt = Ok v ->
  String.get 1 s = Some "/"%char \/ String.get 2 s = Some "/"%char.
Proof.
  intros Hf H. apply strptime_Ok_matches in H.
  destruct H as [its [gs [Hp Hm]]].
  destruct Hf as [-> | ->]; cbn in Hp; inversion Hp; subst its; clear Hp;
    apply group_then_literal in Hm; destruct Hm as [a [Hin Hg]];
    simpl in Hin;
    repeat (destruct Hin as [<- | Hin]; [simpl in Hg; tauto|]);
    destruct Hin.
Qed.

Lemma slash_date_is_not_iso s fmt v :
  fmt = "%d/%m/%Y" \/ fmt = "%m/%d/%Y" ->
  strptime s fmt = Ok v ->
  strptime s "%Y-%m-%d" = Raise ValueError.
Proof.
  intros Hf H.
  destruct (strptime s "%Y-%m-%d") as [w|e] eqn:Hy.
  - exfalso. apply year_first_excludes_slash in Hy.
    destruct (slash_first_has_slash _ _ _ Hf H); tauto.
  - apply strptime_raises in Hy. congruence.
Qed.

(** ** toDate, toTime, toBoolean *)

Section ToDate.

Variable fromisoformat : string -> result datetime.

Lemma to_date_text (v : cell) :
  is_blank v = false -> is_native_date v = false ->
  _to_date fromisoformat v =
  for_formats date_formats (strip (str v)) (fun x => Some (dt_date x))
    (except_Exception
       (x <- fromisoformat (strip (str v)) ;; Ok (Some (dt_date x))) (Ok None)).
Proof.
  intros Hb Hn. unfold _to_date. rewrite Hb.
  destruct v; try reflexivity; discriminate.
Qed.

Lemma to_time_text (v : cell) :
  is_blank v = false -> is_native_time v = false ->
  _to_time fromisoformat v =
  for_formats time_formats (strip (str v)) (fun x => Some (dt_time x))
    (except_Exception
       (x <- fromisoformat (strip (str v)) ;;
        Ok (Some (replace_second0 (dt_time x)))) (Ok None)).
Proof.
  intros Hb Hn. unfold _to_time. rewrite Hb.
  destruct v; try reflexivity; discriminate.
Qed.

Lemma to_date_day_first (s : string) (v : datetime) :
  strptime (strip s) "%d/%m/%Y" = Ok v ->
  _to_date fromisoformat (CStr s) = Ok (Some (dt_date v)).
Proof.
  intro H.
  assert (Hb : is_blank (CStr s) = false).
  { destruct s; [vm_compute in H; discriminate | reflexivity]. }
  rewrite to_date_text by (assumption || reflexivity).
  simpl str. unfold date_formats. cbn [for_formats].
  rewrite (slash_date_is_not_iso _ _ _ (or_introl eq_refl) H).
  rewrite H. reflexivity.
Qed.

End ToDate.

(** C6.  toDate returns a native date as it is and the date part of a
    native datetime; any other non-empty value is read through its text,
    trimmed, by the first that succeeds of: ISO [YYYY-MM-DD], day first
    [DD/MM/YYYY], month first [MM/DD/YYYY], then [fromisoformat]; a text
    both slash formats accept is read day first, so ["01/02/2024"] is the
    first of February; an empty value, and a text every attempt refuses,
    give no date. *)
Theorem to_date_tries_formats_in_order (fromisoformat : string -> result datetime) :
  (forall d, _to_date fromisoformat (CDate d) = Ok (Some d)) /\
  (forall v, _to_date fromisoformat (CDateTime v) = Ok (Some (dt_date v))) /\
  _to_date fromisoformat CNone = Ok None /\
  _to_date fromisoformat (CStr "") = Ok None /\
  (forall val, is_blank val = false -> is_native_date val = false ->
     let s := strip (str val) in
     (forall v, strptime s "%Y-%m-%d" = Ok v ->
        _to_date fromisoformat val = Ok (Some (dt_date v))) /\
     (forall v, raises (strptime s "%Y-%m-%d") = true ->
        strptime s "%d/%m/%Y" = Ok v ->
        _to_date fromisoformat val = Ok (Some (dt_date v))) /\
     (forall v, raises (strptime s "%Y-%m-%d") = true ->
        raises (strptime s "%d/%m/%Y") = true ->
        strptime s "%m/%d/%Y" = Ok v ->
        _to_date fromisoformat val = Ok (Some (dt_date v))) /\
     (forall v, raises (strptime s "%Y-%m-%d") = true ->
        raises (strptime s "%d/%m/%Y") = true ->
        raises (strptime s "%m/%d/%Y") = true ->
        fromisoformat s = Ok v ->
        _to_date fromisoformat val = Ok (Some (dt_date v))) /\
     (raises (strptime s "%Y-%m-%d") = true ->
      raises (strptime s "%d/%m/%Y") = true ->
      raises (strptime s "%m/%d/%Y") = true ->
      raises (fromisoformat s) = true ->
      _to_date fromisoformat val = Ok None)) /\
  (forall s v1 v2,
     strptime (strip s) "%d/%m/%Y" = Ok v1 ->
     strptime (strip s) "%m/%d/%Y" = Ok v2 ->
     _to_date fromisoformat (CStr s) = Ok (Some (dt_date v1))) /\
  strptime "01/02/2024" "%d/%m/%Y" = Ok (mkdatetime (mkdate 2024 2 1) midnight) /\
  strptime "01/02/2024" "%m/%d/%Y" = Ok (mkdatetime (mkdate 2024 1 2) midnight) /\
  _to_date fromisoformat (CStr "01/02/2024") = Ok (Some (mkdate 2024 2 1)).
Proof.
  assert (Hraise : forall s fmt, raises (strptime s fmt) = true ->
                     strptime s fmt = Raise ValueError).
  { intros s fmt H. destruct (strptime s fmt) eqn:Hs; [discriminate|].
    apply strptime_raises in Hs. congruence. }
  do 4 (split; [reflexivity|]).
  split.
  { intros val Hb Hn s.
    rewrite to_date_text by assumption.
    unfold date_formats. cbn [for_formats]. fold s.
    split; [|split; [|split; [|split]]].
    - intros v H. rewrite H. reflexivity.
    - intros v H1 H2. rewrite (Hraise _ _ H1), H2. reflexivity.
    - intros v H1 H2 H3.
      rewrite (Hraise _ _ H1), (Hraise _ _ H2), H3. reflexivity.
    - intros v H1 H2 H3 H4.
      rewrite (Hraise _ _ H1), (Hraise _ _ H2), (Hraise _ _ H3), H4.
      reflexivity.
    - intros H1 H2 H3 H4.
      rewrite (Hraise _ _ H1), (Hraise _ _ H2), (Hraise _ _ H3).
      destruct (fromisoformat s); [discriminate | reflexivity]. }
  split; [|split; [reflexivity|split; [reflexivity|]]].
  - intros s v1 v2 H1 _. apply to_date_day_first. assumption.
  - apply (to_date_day_first fromisoformat "01/02/2024"
             (mkdatetime (mkdate 2024 2 1) midnight)).
    reflexivity.
Qed.

Lemma for_formats_all_raise {A : Type} fmts s (conv : datetime -> A) after :
  (forall fmt, In fmt fmts -> raises (strptime s fmt) = true) ->
  for_formats fmts s conv after = after.
Proof.
  induction fmts as [|fmt rest IH]; intro H; simpl; [reflexivity|].
  assert (Hf := H fmt (or_introl eq_refl)).
  destruct (strptime s fmt) as [v|e] eqn:Hs; [discriminate|].
  apply strptime_raises in Hs. subst e. simpl.
  apply IH. intros f Hin. apply H. right. assumption.
Qed.

Lemma truthy_spec (val : cell) :
  truthy val = true <->
  val <> CNone /\ In (lower (strip (str val))) truthy_words.
Proof.
  assert (Hex : forall s, existsb (String.eqb s) truthy_words = true <->
                          In s truthy_words).
  { intro s. rewrite existsb_exists. split.
    - intros [x [Hin Hx]]. apply String.eqb_eq in Hx. subst. assumption.
    - intro Hin. exists s. split; [assumption | apply String.eqb_refl]. }
  destruct val; unfold truthy;
    try (rewrite Hex; split; [intro H; split; [discriminate | exact H]
                             | intros [_ H]; exact H]).
  split; [discriminate | intros [H _]; congruence].
Qed.

(** C8.  toDate, toTime and toBoolean never raise, whatever the cell
    holds: [_to_date] and [_to_time] always return, an empty value and a
    text that every parser refuses give the no-value result, and [truthy]
    (a plain boolean function) is false on [None] and on everything
    outside its list of words. *)
Theorem coercions_never_raise (fromisoformat : string -> result datetime)
    (val : cell) :
  (exists o, _to_date fromisoformat val = Ok o) /\
  (exists o, _to_time fromisoformat val = Ok o) /\
  (is_blank val = true ->
     _to_date fromisoformat val = Ok None /\
     _to_time fromisoformat val = Ok None) /\
  (is_blank val = false -> is_native_date val = false ->
     (forall fmt, In fmt date_formats ->
        raises (strptime (strip (str val)) fmt) = true) ->
     raises (fromisoformat (strip (str val))) = true ->
     _to_date fromisoformat val = Ok None) /\
  (is_blank val = false -> is_native_time val = false ->
     (forall fmt, In fmt time_formats ->
        raises (strptime (strip (str val)) fmt) = true) ->
     raises (fromisoformat (strip (str val))) = true ->
     _to_time fromisoformat val = Ok None) /\
  truthy CNone = false /\
  (truthy val = true <->
     val <> CNone /\ In (lower (strip (str val))) truthy_words).
Proof.
  split; [apply to_date_Ok|].
  split; [apply to_time_Ok|].
  split.
  { intro Hb. unfold _to_date, _to_time. rewrite Hb. split; reflexivity. }
  split.
  { intros Hb Hn Hall Hiso. rewrite to_date_text by assumption.
    rewrite for_formats_all_raise by assumption.
    destruct (fromisoformat (strip (str val))); [discriminate | reflexivity]. }
  split.
  { intros Hb Hn Hall Hiso. rewrite to_time_text by assumption.
    rewrite for_formats_all_raise by assumption.
    destruct (fromisoformat (strip (str val))); [discriminate | reflexivity]. }
  split; [reflexivity | apply truthy_spec].
Qed.

(** ** Rows that are passed over *)

Section RowFacts.

Variable fromisoformat : string -> result datetime.

Lemma append_head_lines now_utc st f :
  lines (append_head now_utc st f) = (lines st ++ head_lines now_utc f)%list.
Proof.
  unfold append_head, head_lines, append_if, append.
  destruct (nonempty (location f)), (nonempty (desc f)), (nonempty (url f)),
    (negb (Nat.eqb (List.length (categories f)) 0));
    cbn [lines]; repeat rewrite <- app_assoc; reflexivity.
Qed.

Lemma append_head_count now_utc st f :
  event_count (append_head now_utc st f) = event_count st.
Proof.
  unfold append_head, append_if, append.
  destruct (nonempty (location f)), (nonempty (desc f)), (nonempty (url f)),
    (negb (Nat.eqb (List.length (categories f)) 0)); reflexivity.
Qed.

Lemma process_row_skipped c now_utc st r :
  accept fromisoformat c r = Ok None ->
  process_row fromisoformat c now_utc st r = Ok st.
Proof.
  intro H. unfold process_row. rewrite H. reflexivity.
Qed.

Lemma process_rows_app c now_utc pre : forall st post,
  process_rows fromisoformat c now_utc st (pre ++ post) =
  (st' <- process_rows fromisoformat c now_utc st pre ;;
   process_rows fromisoformat c now_utc st' post).
Proof.
  induction pre as [|r pre IH]; intros st post; simpl; [reflexivity|].
  destruct (process_row fromisoformat c now_utc st r); simpl;
    [apply IH | reflexivity].
Qed.

Lemma process_rows_without c now_utc st pre r post :
  (forall st', process_row fromisoformat c now_utc st' r = Ok st') ->
  process_rows fromisoformat c now_utc st (pre ++ r :: post) =
  process_rows fromisoformat c now_utc st (pre ++ post).
Proof.
  intro Hskip. rewrite !process_rows_app.
  destruct (process_rows fromisoformat c now_utc st pre) as [st1|e]; simpl;
    [|reflexivity].
  rewrite Hskip. reflexivity.
Qed.

Lemma accept_blank_row c r :
  forallb is_blank r = true -> accept fromisoformat c r = Ok None.
Proof.
  intro H. unfold accept. rewrite H. reflexivity.
Qed.

Lemma accept_no_title c r :
  row_title c r = Ok "" -> accept fromisoformat c r = Ok None.
Proof.
  intro H. unfold accept. rewrite H.
  destruct (forallb is_blank r); reflexivity.
Qed.

Lemma accept_no_start_date c r t v :
  row_title c r = Ok t -> row_sdate c r = Ok v ->
  _to_date fromisoformat v = Ok None ->
  accept fromisoformat c r = Ok None.
Proof.
  intros Ht Hv Hd. unfold accept. rewrite Ht.
  destruct (forallb is_blank r); [reflexivity|]. simpl.
  destruct (nonempty t); [|reflexivity]. simpl.
  rewrite Hv. simpl. rewrite Hd. reflexivity.
Qed.

End RowFacts.

(** C5.  A row whose title is empty or absent after trimming, or whose
    start date no format parses, produces no event: the lines and the
    count are what they were before the row, and the run over the whole
    sheet is the run over the sheet without the row, so the rows after it
    are processed as usual. *)
Theorem no_title_or_start_date_no_event
    (fromisoformat : string -> result datetime) (c : cols) (now_utc : string)
    (st : state) (pre : list row) (r : row) (post : list row) (t : string) :
  row_title c r = Ok t ->
  (t = "" \/
   exists v, row_sdate c r = Ok v /\ _to_date fromisoformat v = Ok None) ->
  process_row fromisoformat c now_utc st r = Ok st /\
  run fromisoformat c now_utc (pre ++ r :: post) =
  run fromisoformat c now_utc (pre ++ post).
Proof.
  intros Ht Hwhy.
  assert (Hacc : accept fromisoformat c r = Ok None).
  { destruct Hwhy as [-> | [v [Hv Hd]]].
    - apply accept_no_title. assumption.
    - eapply accept_no_start_date; eassumption. }
  split.
  - apply process_row_skipped. assumption.
  - unfold run. apply process_rows_without.
    intro st'. apply process_row_skipped. assumption.
Qed.

Lemma no_title_or_start_date_no_event_witness :
  (process_row Examples.fromisoformat_ymd Examples.c Examples.now initial
     Examples.blank_title = Ok initial /\
   run Examples.fromisoformat_ymd Examples.c Examples.now
     ([Examples.lecture] ++ Examples.blank_title :: [Examples.lab]) =
   run Examples.fromisoformat_ymd Examples.c Examples.now
     ([Examples.lecture] ++ [Examples.lab])) /\
  (process_row Examples.fromisoformat_ymd Examples.c Examples.now initial
     Examples.bad_start_date = Ok initial /\
   run Examples.fromisoformat_ymd Examples.c Examples.now
     ([Examples.lecture] ++ Examples.bad_start_date :: [Examples.lab]) =
   run Examples.fromisoformat_ymd Examples.c Examples.now
     ([Examples.lecture] ++ [Examples.lab])).
Proof.
  split.
  - apply (no_title_or_start_date_no_event Examples.fromisoformat_ymd
             Examples.c Examples.now initial [Examples.lecture]
             Examples.blank_title [Examples.lab] "").
    + reflexivity.
    + left. reflexivity.
  - apply (no_title_or_start_date_no_event Examples.fromisoformat_ymd
             Examples.c Examples.now initial [Examples.lecture]
             Examples.bad_start_date [Examples.lab] "Lab").
    + reflexivity.
    + right. exists (CStr "not a date"). split; reflexivity.
Defined.

(** ** The shape of what a row appends *)

Section Shape.

Variable fromisoformat : string -> result datetime.

(** What [append_times] adds does not depend on what is already there. *)
Lemma append_times_extend st f b :
  append_times fromisoformat st f b =
  extend_result st (append_times fromisoformat empty_state f b).
Proof.
  unfold append_times, extend_result, extend, append.
  destruct b.
  - destruct (_to_date fromisoformat (sdate f)) as [start0|e]; simpl;
      [|reflexivity].
    destruct (if truth (edate f)
              then e <- _to_date fromisoformat (edate f);;
                   Ok match e with Some d => Some d | None => start0 end
              else Ok start0) as [end0|e]; simpl; [|reflexivity].
    destruct start0 as [start_d|]; [|reflexivity].
    destruct end0 as [end_d|]; [|reflexivity].
    destruct (add_one_day end_d); simpl; [|reflexivity].
    rewrite <- !app_assoc. reflexivity.
  - destruct (parse_datetime fromisoformat (sdate f) (stime f)) as [s|e];
      simpl; [|reflexivity].
    destruct (parse_datetime fromisoformat (por (edate f) (sdate f))
                (por (por (etime f) (stime f)) (CStr "00:00"))) as [e'|e];
      simpl; [|reflexivity].
    destruct s as [s|]; [destruct e' as [e'|]|]; simpl;
      rewrite ?Z.add_0_r, <- ?app_assoc; reflexivity.
Qed.

Lemma process_row_accepted c now_utc st r f :
  accept fromisoformat c r = Ok (Some f) ->
  process_row fromisoformat c now_utc st r =
  (is_all_day <- all_day fromisoformat f ;;
   append_times fromisoformat (append_head now_utc st f) f is_all_day).
Proof.
  intro H. unfold process_row. rewrite H. reflexivity.
Qed.

(** An accepted row appends its head lines and then what
    [append_times] adds. *)
Lemma process_row_lines c now_utc st r f st' :
  accept fromisoformat c r = Ok (Some f) ->
  process_row fromisoformat c now_utc st r = Ok st' ->
  exists b t,
    all_day fromisoformat f = Ok b /\
    append_times fromisoformat empty_state f b = Ok t /\
    lines st' = (lines st ++ head_lines now_utc f ++ lines t)%list /\
    event_count st' = event_count st + event_count t.
Proof.
  intros Hacc H. rewrite (process_row_accepted _ _ _ _ _ Hacc) in H.
  apply bind_Ok in H. destruct H as [b [Hb H]].
  rewrite append_times_extend in H.
  destruct (append_times fromisoformat empty_state f b) as [t|e] eqn:Ht;
    [|discriminate].
  inversion H; subst st'. exists b, t.
  repeat split; try assumption; unfold extend; cbn [lines event_count].
  - rewrite append_head_lines, <- app_assoc. reflexivity.
  - rewrite append_head_count. reflexivity.
Qed.

End Shape.

(** ** Skipped after the block was opened *)

(** C1, where the code departs from the specification.  A timed row whose start
    or end instant cannot be resolved is not counted, but it is not
    absent from the output either: the lines written before the check
    (BEGIN:VEVENT, UID, DTSTAMP, SUMMARY, TRANSP and the optional ones)
    stay, closed by END:VEVENT, without DTSTART and DTEND. *)
Theorem timed_skip_leaves_event_block
    (fromisoformat : string -> result datetime) (c : cols) (now_utc : string)
    (st : state) (r : row) (f : fields) (d_start d_end : option datetime) :
  accept fromisoformat c r = Ok (Some f) ->
  all_day fromisoformat f = Ok false ->
  parse_datetime fromisoformat (sdate f) (stime f) = Ok d_start ->
  parse_datetime fromisoformat (por (edate f) (sdate f))
    (por (por (etime f) (stime f)) (CStr "00:00")) = Ok d_end ->
  d_start = None \/ d_end = None ->
  exists st',
    process_row fromisoformat c now_utc st r = Ok st' /\
    lines st' = (lines st ++ head_lines now_utc f ++ ["END:VEVENT"])%list /\
    event_count st' = event_count st.
Proof.
  intros Hacc Hday Hs He Hnone.
  rewrite (process_row_accepted _ _ _ _ _ _ Hacc), Hday. simpl.
  unfold append_times. rewrite Hs, He. simpl.
  exists (append (append_head now_utc st f) "END:VEVENT").
  assert (Hgo : match d_start, d_end with
                | Some s, Some e =>
                    Ok (mkstate
                          (lines (append (append (append (append_head now_utc st f)
                             ("DTSTART;TZID=" ++ tz f ++ ":" ++ fmt_local s))
                             ("DTEND;TZID=" ++ tz f ++ ":" ++ fmt_local e))
                             "END:VEVENT"))
                          (event_count (append (append (append
                             (append_head now_utc st f)
                             ("DTSTART;TZID=" ++ tz f ++ ":" ++ fmt_local s))
                             ("DTEND;TZID=" ++ tz f ++ ":" ++ fmt_local e))
                             "END:VEVENT") + 1))
                | _, _ => Ok (append (append_head now_utc st f) "END:VEVENT")
                end = Ok (append (append_head now_utc st f) "END:VEVENT")).
  { destruct Hnone as [-> | ->]; [reflexivity | destruct d_start; reflexivity]. }
  split; [exact Hgo|].
  unfold append. cbn [lines event_count].
  rewrite append_head_lines, append_head_count, <- app_assoc.
  split; reflexivity.
Qed.

Lemma timed_skip_leaves_event_block_witness :
  exists st',
    process_row Examples.fromisoformat_ymd Examples.c Examples.now initial
      Examples.lab_bad_end_date = Ok st' /\
    lines st' =
      (lines initial ++
       ["BEGIN:VEVENT"; "UID:63c434fe559c8c09@youruni";
        "DTSTAMP:20240101T000000Z"; "SUMMARY:Lab"; "TRANSP:OPAQUE"] ++
       ["END:VEVENT"])%list /\
    event_count st' = event_count initial.
Proof.
  exact (timed_skip_leaves_event_block Examples.fromisoformat_ymd Examples.c
           Examples.now initial Examples.lab_bad_end_date
           (mkfields "Lab" (CDate Examples.d_4_march) "" "" "" (CStr "14:00")
                     (CStr "tbd") (CStr "16:00") DEFAULT_TZ "" "" "" false)
           (Some (mkdatetime Examples.d_4_march (mktime 14 0 0 0))) None
           eq_refl eq_refl eq_refl eq_refl (or_intror eq_refl)).
Defined.

(** ** The description line *)

Lemma prefix_drop p : forall s,
  prefix p s = true -> s = (p ++ drop (String.length p) s)%string.
Proof.
  induction p as [|a p IH]; intros s H; simpl; [reflexivity|].
  destruct s as [|b s]; simpl in H; [discriminate|].
  destruct (ascii_dec a b) as [->|]; [|discriminate].
  simpl. f_equal. apply IH. assumption.
Qed.

Lemma replace_from_same old : old <> "" ->
  forall s k, replace_from old old k s = drop k s.
Proof.
  intros Hold s. induction s as [|c s IH]; intro k.
  - destruct k; reflexivity.
  - destruct k as [|k]; cbn [replace_from drop].
    + destruct (prefix old (String c s)) eqn:Hp.
      * rewrite IH. apply prefix_drop in Hp.
        destruct old as [|o old']; [congruence|].
        simpl in Hp |- *. symmetry. exact Hp.
      * rewrite IH. reflexivity.
    + apply IH.
Qed.

Lemma intersperse_empty s : intersperse "" s = s.
Proof.
  induction s as [|c s IH]; simpl; [reflexivity | rewrite IH; reflexivity].
Qed.

(** Replacing a text by itself changes nothing. *)
Lemma replace_same s old : replace s old old = s.
Proof.
  unfold replace. destruct old as [|o old'].
  - apply intersperse_empty.
  - rewrite replace_from_same by discriminate. reflexivity.
Qed.

(** C7, where the code departs from the specification.  The call on line 172
    replaces backslash-n by backslash-n, which changes nothing: the
    DESCRIPTION line of a row that produces an event is the trimmed cell
    text as it is, and a line feed inside the description is written
    raw. *)
Theorem description_is_written_unescaped
    (fromisoformat : string -> result datetime) (c : cols) (now_utc : string)
    (st : state) (r : row) (f : fields) (st' : state) :
  accept fromisoformat c r = Ok (Some f) ->
  nonempty (desc f) = true ->
  contains_char (ascii_of_nat 10) (desc f) = true ->
  process_row fromisoformat c now_utc st r = Ok st' ->
  In ("DESCRIPTION:" ++ desc f) (lines st') /\
  contains_char (ascii_of_nat 10) ("DESCRIPTION:" ++ desc f) = true.
Proof.
  intros Hacc Hdesc Hnl Hrow.
  destruct (process_row_lines _ _ _ _ _ _ _ Hacc Hrow)
    as [b [t [_ [_ [Hlines _]]]]].
  split.
  - rewrite Hlines. apply in_or_app. right. apply in_or_app. left.
    unfold head_lines. rewrite Hdesc, replace_same.
    apply in_or_app. right. apply in_or_app. right.
    apply in_or_app. left. left. reflexivity.
  - simpl. exact Hnl.
Qed.

Lemma description_is_written_unescaped_witness :
  In ("DESCRIPTION:" ++ Examples.two_lines)
     (lines (mkstate
        (header_lines ++
         ["BEGIN:VEVENT"; "UID:3cd004cef9cd0c9a@youruni";
          "DTSTAMP:20240101T000000Z"; "SUMMARY:Lab"; "TRANSP:OPAQUE";
          "DESCRIPTION:" ++ Examples.two_lines;
          "DTSTART;VALUE=DATE:20240304"; "DTEND;VALUE=DATE:20240305";
          "END:VEVENT"]) 1)) /\
  contains_char (ascii_of_nat 10) ("DESCRIPTION:" ++ Examples.two_lines) = true.
Proof.
  exact (description_is_written_unescaped Examples.fromisoformat_ymd Examples.c
           Examples.now initial Examples.lab_with_notes
           (mkfields "Lab" (CDate Examples.d_4_march) "" "" "" CNone CNone CNone
                     DEFAULT_TZ "" Examples.two_lines "" false)
           _ eq_refl eq_refl eq_refl eq_refl).
Defined.

(** ** The derived identifier *)

(** C2.  A row that is kept and supplies no id gets the first sixteen
    hexadecimal characters of the SHA-1 of its course, title, start date,
    end date, start time, end time and location, rendered as text and
    joined in that order, followed by ["@youruni"]; this is the UID line
    of its block whatever the run and its time stamp, and two such rows
    with the same seven values get the same uid. *)
Theorem derived_uid_is_fingerprint
    (fromisoformat : string -> result datetime) (c : cols)
    (r1 r2 : row) (f1 f2 : fields) :
  accept fromisoformat c r1 = Ok (Some f1) ->
  accept fromisoformat c r2 = Ok (Some f2) ->
  uid f1 = "" -> uid f2 = "" ->
  event_uid f1 =
    take 16 (SHA1.hexdigest
               (join "|" [course f1; title f1; str (sdate f1); str (edate f1);
                          str (stime f1); str (etime f1); location f1]))
    ++ "@youruni" /\
  (forall now_utc st st',
     process_row fromisoformat c now_utc st r1 = Ok st' ->
     exists rest,
       lines st' =
       (lines st ++ "BEGIN:VEVENT" :: ("UID:" ++ event_uid f1)%string :: rest)%list) /\
  (course f1 = course f2 -> title f1 = title f2 ->
   sdate f1 = sdate f2 -> edate f1 = edate f2 ->
   stime f1 = stime f2 -> etime f1 = etime f2 ->
   location f1 = location f2 ->
   event_uid f1 = event_uid f2).
Proof.
  intros Hacc1 Hacc2 Hu1 Hu2.
  split; [|split].
  - unfold event_uid. rewrite Hu1. reflexivity.
  - intros now_utc st st' Hrow.
    destruct (process_row_lines _ _ _ _ _ _ _ Hacc1 Hrow)
      as [b [t [_ [_ [Hlines _]]]]].
    rewrite Hlines. unfold head_lines. simpl. eexists. reflexivity.
  - intros Hc Ht Hsd Hed Hst Het Hl.
    unfold event_uid. rewrite Hu1, Hu2. simpl.
    rewrite Hc, Ht, Hsd, Hed, Hst, Het, Hl. reflexivity.
Qed.

Lemma derived_uid_is_fingerprint_witness :
  event_uid (mkfields "Intro Lecture" (CDate Examples.d_4_march) "" "CS101" ""
               CNone CNone CNone DEFAULT_TZ "" "" "" false)
  = "63b0a28f0278007c@youruni".
Proof.
  exact (proj1 (derived_uid_is_fingerprint Examples.fromisoformat_ymd
                  Examples.c Examples.lecture Examples.lecture _ _
                  eq_refl eq_refl eq_refl eq_refl)).
Defined.

(** ** The day after *)

Lemma days_in_month_bounds y m : 28 <= days_in_month y m <= 31.
Proof.
  unfold days_in_month.
  destruct (m =? 2); [destruct (is_leap y); lia|].
  destruct ((m =? 4) || (m =? 6) || (m =? 9) || (m =? 11)); lia.
Qed.

(** [add_one_day] stays among the valid dates and moves strictly
    forward. *)
Lemma add_one_day_later (d e : date) :
  valid_date d = true -> add_one_day d = Ok e ->
  valid_date e = true /\ date_ltb d e = true.
Proof.
  unfold valid_date, add_one_day, date_ltb, MINYEAR, MAXYEAR.
  destruct d as [y m dd]. cbn [year month day].
  intros Hv H.
  repeat (apply andb_prop in Hv; destruct Hv as [Hv ?]).
  repeat match goal with
         | H : (_ <=? _) = true |- _ => apply Z.leb_le in H
         end.
  pose proof (days_in_month_bounds y (m + 1)).
  pose proof (days_in_month_bounds (y + 1) 1).
  destruct (Z.ltb_spec dd (days_in_month y m));
    [|destruct (Z.ltb_spec m 12); [|destruct (Z.ltb_spec y 9999)]];
    inversion H; subst e; cbn [year month day]; split;
    repeat (apply andb_true_intro; split);
    try (apply Z.leb_le; lia);
    apply orb_true_iff.
  - right. rewrite Z.eqb_refl. simpl. apply orb_true_iff. right.
    rewrite Z.eqb_refl. simpl. apply Z.ltb_lt. lia.
  - right. rewrite Z.eqb_refl. simpl. apply orb_true_iff. left.
    apply Z.ltb_lt. lia.
  - left. apply Z.ltb_lt. lia.
Qed.

(** ** All-day events *)

Lemma not_In_existsb (x : string) (l : list string) :
  existsb (String.eqb x) l = false -> ~ In x l.
Proof.
  intros H Hin.
  assert (Ht : existsb (String.eqb x) l = true).
  { apply existsb_exists. exists x. split; [assumption | apply String.eqb_refl]. }
  congruence.
Qed.

Lemma In_existsb (x : string) (l : list string) :
  existsb (String.eqb x) l = true -> In x l.
Proof.
  intro H. apply existsb_exists in H. destruct H as [y [Hin Hy]].
  apply String.eqb_eq in Hy. subst. assumption.
Qed.

(** C3, as the code has it.  An all-day row that passed the title and
    start-date checks is given DTEND one day after its end date when the
    end-date cell is non-blank and parses, and one day after its start
    date otherwise; the two dates are not compared.  (One day after
    9999-12-31 does not exist: the hypothesis on [add_one_day] leaves
    that day out.) *)
Theorem all_day_end_is_day_after_end_or_start
    (fromisoformat : string -> result datetime) (c : cols) (now_utc : string)
    (st : state) (r : row) (f : fields)
    (start_d : date) (explicit_end : option date) (end_excl : date) :
  accept fromisoformat c r = Ok (Some f) ->
  all_day fromisoformat f = Ok true ->
  _to_date fromisoformat (sdate f) = Ok (Some start_d) ->
  _to_date fromisoformat (edate f) = Ok explicit_end ->
  add_one_day (if truth (edate f) then or_else explicit_end start_d
               else start_d) = Ok end_excl ->
  process_row fromisoformat c now_utc st r =
  Ok (mkstate
        (lines st ++ head_lines now_utc f ++
         [("DTSTART;VALUE=DATE:" ++ fmt_date start_d)%string;
          ("DTEND;VALUE=DATE:" ++ fmt_date end_excl)%string;
          "END:VEVENT"])
        (event_count st + 1)).
Proof.
  intros Hacc Hday Hs He Hnext.
  rewrite (process_row_accepted _ _ _ _ _ _ Hacc), Hday. cbn [bind].
  unfold append_times. rewrite Hs. cbn [bind].
  assert (Hend : (if truth (edate f)
                  then e <- _to_date fromisoformat (edate f);;
                       Ok match e with Some d => Some d | None => Some start_d end
                  else Ok (Some start_d)) =
                 Ok (Some (if truth (edate f) then or_else explicit_end start_d
                           else start_d))).
  { destruct (truth (edate f)); [|reflexivity].
    rewrite He. destruct explicit_end; reflexivity. }
  rewrite Hend. cbn [bind]. rewrite Hnext. cbn [bind].
  unfold append. cbn [lines event_count].
  rewrite append_head_lines, append_head_count, <- !app_assoc. reflexivity.
Qed.

Lemma all_day_end_is_day_after_end_or_start_witness :
  process_row Examples.fromisoformat_ymd Examples.c Examples.now initial
    Examples.camp_backwards =
  Ok (mkstate
        (header_lines ++
         ["BEGIN:VEVENT"; "UID:57396ccf36d64671@youruni";
          "DTSTAMP:20240101T000000Z"; "SUMMARY:Camp"; "TRANSP:OPAQUE"] ++
         ["DTSTART;VALUE=DATE:20240310"; "DTEND;VALUE=DATE:20240305";
          "END:VEVENT"])
        1).
Proof.
  exact (all_day_end_is_day_after_end_or_start Examples.fromisoformat_ymd
           Examples.c Examples.now initial Examples.camp_backwards
           (mkfields "Camp" (CDate Examples.d_10_march) "" "" "" CNone
                     (CDate Examples.d_4_march) CNone DEFAULT_TZ "" "" "" false)
           Examples.d_10_march (Some Examples.d_4_march) (mkdate 2024 3 5)
           eq_refl eq_refl eq_refl eq_refl eq_refl).
Defined.

(** C3 as stated fails on a row that ends before it starts: start
    2024-03-10, end 2024-03-04, no times.  The later of the two dates is
    the start date, so the specification puts DTEND on 2024-03-11; the code
    writes 2024-03-05. *)
Lemma all_day_end_before_start_counterexample :
  exists f st claimed,
    accept Examples.fromisoformat_ymd Examples.c Examples.camp_backwards
      = Ok (Some f) /\
    all_day Examples.fromisoformat_ymd f = Ok true /\
    parsed_date Examples.fromisoformat_ymd (sdate f) = Some (mkdate 2024 3 10) /\
    parsed_date Examples.fromisoformat_ymd (edate f) = Some (mkdate 2024 3 4) /\
    stated_all_day_end Examples.fromisoformat_ymd f = Ok claimed /\
    claimed = mkdate 2024 3 11 /\
    process_row Examples.fromisoformat_ymd Examples.c Examples.now initial
      Examples.camp_backwards = Ok st /\
    event_count st = 1 /\
    In "DTEND;VALUE=DATE:20240305" (lines st) /\
    ~ In ("DTEND;VALUE=DATE:" ++ fmt_date claimed) (lines st).
Proof.
  eexists. eexists. eexists.
  split; [vm_compute; reflexivity|].
  split; [vm_compute; reflexivity|].
  split; [vm_compute; reflexivity|].
  split; [vm_compute; reflexivity|].
  split; [vm_compute; reflexivity|].
  split; [reflexivity|].
  split; [vm_compute; reflexivity|].
  split; [reflexivity|].
  split.
  - apply In_existsb. vm_compute. reflexivity.
  - apply not_In_existsb. vm_compute. reflexivity.
Qed.

(** ** Timed events *)

Lemma parse_datetime_Some (fromisoformat : string -> result datetime)
    (d_val t_val : cell) (v : datetime) :
  parse_datetime fromisoformat d_val t_val = Ok (Some v) ->
  exists d t,
    _to_date fromisoformat d_val = Ok (Some d) /\
    _to_time fromisoformat t_val = Ok t /\
    combine d (or_else t midnight) = Ok v.
Proof.
  unfold parse_datetime. intro H.
  apply bind_Ok in H. destruct H as [d0 [Hd H]].
  destruct d0 as [d|]; [|discriminate].
  apply bind_Ok in H. destruct H as [t [Ht H]].
  apply bind_Ok in H. destruct H as [w [Hw H]].
  inversion H; subst w. eauto.
Qed.

(** C4, as the code has it.  A timed row that produces an event starts
    at its start date with the hour and minute of its start time,
    midnight when the start time does not parse.  It ends at the date
    read from the end-date cell, or from the start-date cell when the
    end-date cell is blank, with the hour and minute read from the first
    non-blank cell among end time and start time (["00:00"] when both are
    blank), midnight when that cell does not parse. *)
Theorem timed_event_instants
    (fromisoformat : string -> result datetime) (c : cols) (now_utc : string)
    (st : state) (r : row) (f : fields) (st' : state) :
  accept fromisoformat c r = Ok (Some f) ->
  all_day fromisoformat f = Ok false ->
  process_row fromisoformat c now_utc st r = Ok st' ->
  event_count st' = event_count st + 1 ->
  exists start_d start_t end_d end_t s e,
    _to_date fromisoformat (sdate f) = Ok (Some start_d) /\
    _to_time fromisoformat (stime f) = Ok start_t /\
    combine start_d (or_else start_t midnight) = Ok s /\
    _to_date fromisoformat (por (edate f) (sdate f)) = Ok (Some end_d) /\
    _to_time fromisoformat (por (por (etime f) (stime f)) (CStr "00:00"))
      = Ok end_t /\
    combine end_d (or_else end_t midnight) = Ok e /\
    lines st' =
      (lines st ++ head_lines now_utc f ++
       [("DTSTART;TZID=" ++ tz f ++ ":" ++ fmt_local s)%string;
        ("DTEND;TZID=" ++ tz f ++ ":" ++ fmt_local e)%string;
        "END:VEVENT"])%list.
Proof.
  intros Hacc Hday Hrow Hcount.
  rewrite (process_row_accepted _ _ _ _ _ _ Hacc), Hday in Hrow.
  cbn [bind] in Hrow. unfold append_times in Hrow.
  apply bind_Ok in Hrow. destruct Hrow as [ds [Hs Hrow]].
  apply bind_Ok in Hrow. destruct Hrow as [de [He Hrow]].
  assert (Hskip : event_count (append (append_head now_utc st f) "END:VEVENT")
                  = event_count st).
  { unfold append. cbn [event_count]. apply append_head_count. }
  destruct ds as [s|]; [destruct de as [e|]|];
    inversion Hrow; subst st'; try (rewrite Hskip in Hcount; lia).
  apply parse_datetime_Some in Hs. destruct Hs as [d1 [t1 [Hd1 [Ht1 Hc1]]]].
  apply parse_datetime_Some in He. destruct He as [d2 [t2 [Hd2 [Ht2 Hc2]]]].
  exists d1, t1, d2, t2, s, e.
  repeat (split; [assumption|]).
  unfold append. cbn [lines].
  rewrite append_head_lines, <- !app_assoc. reflexivity.
Qed.

Lemma timed_event_instants_witness :
  exists start_d start_t end_d end_t s e,
    _to_date Examples.fromisoformat_ymd (CDate Examples.d_4_march)
      = Ok (Some start_d) /\
    _to_time Examples.fromisoformat_ymd (CStr "14:00") = Ok start_t /\
    combine start_d (or_else start_t midnight) = Ok s /\
    _to_date Examples.fromisoformat_ymd
      (por CNone (CDate Examples.d_4_march)) = Ok (Some end_d) /\
    _to_time Examples.fromisoformat_ymd
      (por (por (CStr "16:00") (CStr "14:00")) (CStr "00:00")) = Ok end_t /\
    combine end_d (or_else end_t midnight) = Ok e /\
    (header_lines ++
     ["BEGIN:VEVENT"; "UID:74849c5960e2490f@youruni";
      "DTSTAMP:20240101T000000Z"; "SUMMARY:Lab"; "TRANSP:OPAQUE";
      "DTSTART;TZID=Australia/Sydney:20240304T140000";
      "DTEND;TZID=Australia/Sydney:20240304T160000"; "END:VEVENT"])%list =
    (header_lines ++
     ["BEGIN:VEVENT"; "UID:74849c5960e2490f@youruni";
      "DTSTAMP:20240101T000000Z"; "SUMMARY:Lab"; "TRANSP:OPAQUE"] ++
     [("DTSTART;TZID=" ++ DEFAULT_TZ ++ ":" ++ fmt_local s)%string;
      ("DTEND;TZID=" ++ DEFAULT_TZ ++ ":" ++ fmt_local e)%string;
      "END:VEVENT"])%list.
Proof.
  exact (timed_event_instants Examples.fromisoformat_ymd Examples.c
           Examples.now initial Examples.lab
           (mkfields "Lab" (CDate Examples.d_4_march) "" "" "" (CStr "14:00")
                     CNone (CStr "16:00") DEFAULT_TZ "" "" "" false)
           (mkstate
              (header_lines ++
               ["BEGIN:VEVENT"; "UID:74849c5960e2490f@youruni";
                "DTSTAMP:20240101T000000Z"; "SUMMARY:Lab"; "TRANSP:OPAQUE";
                "DTSTART;TZID=Australia/Sydney:20240304T140000";
                "DTEND;TZID=Australia/Sydney:20240304T160000"; "END:VEVENT"])
              1)
           eq_refl eq_refl eq_refl eq_refl).
Defined.

(** C4 as stated fails on a timed row whose end time is a text that does
    not parse: start 2024-03-04 14:00, end time ["tbd"].  The row has no
    end time, so the specification ends the event at the start time, 14:00; the
    code reads the unparseable cell, falls back to midnight and ends the
    event at 00:00 of the same day. *)
Lemma timed_end_time_unparseable_counterexample :
  exists f st claimed,
    accept Examples.fromisoformat_ymd Examples.c Examples.lab_bad_end_time
      = Ok (Some f) /\
    all_day Examples.fromisoformat_ymd f = Ok false /\
    parsed_time Examples.fromisoformat_ymd (stime f) = Some (mktime 14 0 0 0) /\
    parsed_time Examples.fromisoformat_ymd (etime f) = None /\
    stated_end_instant Examples.fromisoformat_ymd f = Ok claimed /\
    claimed = mkdatetime (mkdate 2024 3 4) (mktime 14 0 0 0) /\
    process_row Examples.fromisoformat_ymd Examples.c Examples.now initial
      Examples.lab_bad_end_time = Ok st /\
    event_count st = 1 /\
    In "DTEND;TZID=Australia/Sydney:20240304T000000" (lines st) /\
    ~ In ("DTEND;TZID=" ++ tz f ++ ":" ++ fmt_local claimed) (lines st).
Proof.
  eexists. eexists. eexists.
  split; [vm_compute; reflexivity|].
  split; [vm_compute; reflexivity|].
  split; [vm_compute; reflexivity|].
  split; [vm_compute; reflexivity|].
  split; [vm_compute; reflexivity|].
  split; [reflexivity|].
  split; [vm_compute; reflexivity|].
  split; [reflexivity|].
  split.
  - apply In_existsb. vm_compute. reflexivity.
  - apply not_In_existsb. vm_compute. reflexivity.
Qed.

(** ** Two runs over the same sheet *)

Section Stamp.

Variable fromisoformat : string -> result datetime.
Variables now1 now2 : string.

Lemma same_but_stamp_refl (l : list string) :
  Forall2 (same_but_stamp now1 now2) l l.
Proof.
  induction l as [|x l IH]; constructor; [left; reflexivity | assumption].
Qed.

Lemma head_lines_stamp (f : fields) :
  Forall2 (same_but_stamp now1 now2) (head_lines now1 f) (head_lines now2 f).
Proof.
  unfold head_lines.
  apply Forall2_app; [|apply same_but_stamp_refl].
  constructor; [left; reflexivity|].
  constructor; [left; reflexivity|].
  constructor; [right; split; reflexivity|].
  apply same_but_stamp_refl.
Qed.

Lemma append_head_stamp (s1 s2 : state) (f : fields) :
  same_state_but_stamp now1 now2 s1 s2 ->
  same_state_but_stamp now1 now2 (append_head now1 s1 f) (append_head now2 s2 f).
Proof.
  intros [Hc Hl]. split.
  - rewrite !append_head_count. assumption.
  - rewrite !append_head_lines.
    apply Forall2_app; [assumption | apply head_lines_stamp].
Qed.

Lemma append_times_stamp (s1 s2 : state) (f : fields) (b : bool) :
  same_state_but_stamp now1 now2 s1 s2 ->
  same_run_but_stamp now1 now2
    (append_times fromisoformat s1 f b) (append_times fromisoformat s2 f b).
Proof.
  intros [Hc Hl].
  rewrite (append_times_extend fromisoformat s1),
          (append_times_extend fromisoformat s2).
  destruct (append_times fromisoformat empty_state f b) as [t|e]; simpl;
    [|reflexivity].
  split; [congruence|].
  apply Forall2_app; [assumption | apply same_but_stamp_refl].
Qed.

Lemma process_row_stamp (c : cols) (s1 s2 : state) (r : row) :
  same_state_but_stamp now1 now2 s1 s2 ->
  same_run_but_stamp now1 now2
    (process_row fromisoformat c now1 s1 r)
    (process_row fromisoformat c now2 s2 r).
Proof.
  intro H. unfold process_row.
  destruct (accept fromisoformat c r) as [[f|]|e]; simpl.
  - destruct (all_day fromisoformat f) as [b|e]; simpl; [|reflexivity].
    apply append_times_stamp. apply append_head_stamp. assumption.
  - exact H.
  - reflexivity.
Qed.

Lemma process_rows_stamp (c : cols) (rows : list row) : forall s1 s2,
  same_state_but_stamp now1 now2 s1 s2 ->
  same_run_but_stamp now1 now2
    (process_rows fromisoformat c now1 s1 rows)
    (process_rows fromisoformat c now2 s2 rows).
Proof.
  induction rows as [|r rows IH]; intros s1 s2 H; simpl; [exact H|].
  pose proof (process_row_stamp c s1 s2 r H) as Hr.
  destruct (process_row fromisoformat c now1 s1 r) as [t1|e1],
           (process_row fromisoformat c now2 s2 r) as [t2|e2];
    simpl in Hr |- *; try contradiction.
  - apply IH. exact Hr.
  - exact Hr.
Qed.

End Stamp.

(** C9.  The output is a function of the header, the rows and the time
    stamp of the run, and the time stamp shows only in the DTSTAMP lines:
    two runs over the same sheet both fail with the same exception, or
    both end with the same count and with lines that are equal one by one
    except that a DTSTAMP line of one run faces the DTSTAMP line of the
    other; the documents written are those lines joined by line feeds. *)
Theorem runs_differ_only_in_stamp
    (fromisoformat : string -> result datetime) (hdr : row) (c : cols)
    (rows : list row) (now1 now2 : string) :
  same_run_but_stamp now1 now2
    (run fromisoformat c now1 rows) (run fromisoformat c now2 rows) /\
  same_main_but_stamp now1 now2
    (main fromisoformat hdr now1 rows) (main fromisoformat hdr now2 rows).
Proof.
  assert (Hrun : forall c', same_run_but_stamp now1 now2
            (run fromisoformat c' now1 rows) (run fromisoformat c' now2 rows)).
  { intro c'. unfold run. apply process_rows_stamp.
    split; [reflexivity | apply same_but_stamp_refl]. }
  split; [apply Hrun|].
  unfold same_main_but_stamp, main.
  destruct (columns hdr) as [c'|e]; simpl; [|reflexivity].
  specialize (Hrun c').
  destruct (run fromisoformat c' now1 rows) as [s1|e1],
           (run fromisoformat c' now2 rows) as [s2|e2];
    simpl in Hrun |- *; try contradiction; [|exact Hrun].
  destruct Hrun as [Hc Hl]. split; [exact Hc|].
  exists (lines s1), (lines s2). repeat split. exact Hl.
Qed.

(** ** The identifier is taken over the cells as they are *)

Lemma make_uid_renderings (l1 l2 : list cell) :
  map str l1 = map str l2 -> make_uid l1 = make_uid l2.
Proof.
  intro H. unfold make_uid. rewrite H. reflexivity.
Qed.

(** C10, as the code has it.  The derived uid is the fingerprint of the
    text renderings of the cells as they are read, not of the dates and
    times parsed from them: rows whose seven renderings agree get the
    same uid, and rows that spell one date differently get different
    uids although their DTSTART and DTEND lines agree, as do the day-first
    text ["04/03/2024"] and the ISO text ["2024-03-04"], or a native
    datetime and that ISO text. *)
Theorem derived_uid_hashes_renderings
    (fromisoformat : string -> result datetime) :
  (forall f1 f2,
     uid f1 = "" -> uid f2 = "" ->
     course f1 = course f2 -> title f1 = title f2 ->
     str (sdate f1) = str (sdate f2) -> str (edate f1) = str (edate f2) ->
     str (stime f1) = str (stime f2) -> str (etime f1) = str (etime f2) ->
     location f1 = location f2 ->
     event_uid f1 = event_uid f2) /\
  (forall start,
     In start [CStr "04/03/2024"; CStr "2024-03-04";
               CDateTime (mkdatetime (mkdate 2024 3 4) midnight)] ->
     exists f st,
       accept fromisoformat Examples.c (Examples.talk start) = Ok (Some f) /\
       sdate f = start /\ uid f = "" /\
       parsed_date fromisoformat (sdate f) = Some (mkdate 2024 3 4) /\
       process_row fromisoformat Examples.c Examples.now empty_state
         (Examples.talk start) = Ok st /\
       lines st =
         ["BEGIN:VEVENT"; ("UID:" ++ event_uid f)%string;
          "DTSTAMP:20240101T000000Z"; "SUMMARY:Talk"; "TRANSP:OPAQUE";
          "DTSTART;VALUE=DATE:20240304"; "DTEND;VALUE=DATE:20240305";
          "END:VEVENT"]) /\
  make_uid [CStr ""; CStr "Talk"; CStr "04/03/2024"; CNone; CNone; CNone;
            CStr ""] = "750950888a8d4be4@youruni" /\
  make_uid [CStr ""; CStr "Talk"; CStr "2024-03-04"; CNone; CNone; CNone;
            CStr ""] = "618d0b41d2b0a49a@youruni" /\
  make_uid [CStr ""; CStr "Talk";
            CDateTime (mkdatetime (mkdate 2024 3 4) midnight);
            CNone; CNone; CNone; CStr ""] = "8f8bc203acf8df4d@youruni".
Proof.
  split; [|split; [|split; [|split]]].
  - intros f1 f2 Hu1 Hu2 Hc Ht Hsd Hed Hst Het Hl.
    unfold event_uid. rewrite Hu1, Hu2. simpl.
    apply make_uid_renderings. simpl. congruence.
  - intros start Hin. simpl in Hin.
    destruct Hin as [<- | [<- | [<- | []]]];
      eexists; eexists;
      (split; [vm_compute; reflexivity|]);
      (split; [reflexivity|]);
      (split; [reflexivity|]);
      (split; [vm_compute; reflexivity|]);
      (split; [vm_compute; reflexivity|]);
      vm_compute; reflexivity.
  - vm_compute. reflexivity.
  - vm_compute. reflexivity.
  - vm_compute. reflexivity.
Qed.

(** C10 as stated fails on its own example: a native date prints as
    [2024-03-04], the very text of the ISO spelling, so the row with the
    native date cell and the row with the text get the same uid. *)
Lemma native_date_and_iso_text_counterexample :
  exists f1 f2,
    accept Examples.fromisoformat_ymd Examples.c Examples.talk_native
      = Ok (Some f1) /\
    accept Examples.fromisoformat_ymd Examples.c Examples.talk_iso_text
      = Ok (Some f2) /\
    sdate f1 = CDate (mkdate 2024 3 4) /\
    sdate f2 = CStr "2024-03-04" /\
    sdate f1 <> sdate f2 /\
    uid f1 = "" /\ uid f2 = "" /\
    parsed_date Examples.fromisoformat_ymd (sdate f1) =
    parsed_date Examples.fromisoformat_ymd (sdate f2) /\
    event_uid f1 = "618d0b41d2b0a49a@youruni" /\
    event_uid f2 = "618d0b41d2b0a49a@youruni".
Proof.
  eexists. eexists.
  split; [vm_compute; reflexivity|].
  split; [vm_compute; reflexivity|].
  split; [reflexivity|].
  split; [reflexivity|].
  split; [discriminate|].
  split; [reflexivity|].
  split; [reflexivity|].
  split; [vm_compute; reflexivity|].
  split; vm_compute; reflexivity.
Qed.

(* ================================================================== *)
(** * Further properties of the script *)

(** ** Header lookup *)

Lemma hmap_from_get (key : string) (l : list string) : forall i acc,
  (In key l ->
   exists k, hmap_get (hmap_from i l acc) key = i + Z.of_nat k /\
             nth_error l k = Some key /\
             forall k', (k < k')%nat -> nth_error l k' <> Some key) /\
  (~ In key l -> hmap_get (hmap_from i l acc) key = hmap_get acc key).
Proof.
  induction l as [|h t IH]; intros i acc; simpl.
  - split; [intros [] | reflexivity].
  - destruct (IH (i + 1) ((h, i) :: acc)) as [IHin IHout].
    destruct (in_dec string_dec key t) as [Hin|Hout].
    + split; [|intro Hn; exfalso; apply Hn; right; assumption].
      intros _. destruct (IHin Hin) as [k [Hk [Hnth Hlast]]].
      exists (S k). split; [rewrite Hk; lia|]. split; [exact Hnth|].
      intros k' Hlt. destruct k' as [|k']; [lia|]. simpl. apply Hlast. lia.
    + rewrite (IHout Hout). simpl.
      destruct (String.eqb_spec h key) as [->|Hne].
      * split; [|intro Hn; exfalso; apply Hn; left; reflexivity].
        intros _. exists O. split; [lia|]. split; [reflexivity|].
        intros k' Hlt Hnth. destruct k' as [|k']; [lia|]. simpl in Hnth.
        apply Hout. eapply nth_error_In. exact Hnth.
      * split; [|reflexivity].
        intros [Heq|Hin]; [congruence | contradiction].
Qed.

(** [hmap.get(key, -1)]: the last column with that header, or -1. *)
Lemma hmap_get_last (l : list string) (key : string) :
  (~ In key l /\ hmap_get (hmap l) key = -1) \/
  (exists k, hmap_get (hmap l) key = Z.of_nat k /\
             nth_error l k = Some key /\
             forall k', (k < k')%nat -> nth_error l k' <> Some key).
Proof.
  destruct (hmap_from_get key l 0 []) as [Hin Hout].
  destruct (in_dec string_dec key l) as [H|H].
  - right. destruct (Hin H) as [k [Hk Hrest]]. exists k. split; [|exact Hrest].
    unfold hmap. rewrite Hk. lia.
  - left. split; [exact H|]. unfold hmap. rewrite (Hout H). reflexivity.
Qed.

(** [col]: the column of the first alias some header carries. *)
Lemma col_first_alias (m : list (string * Z)) (aliases : list string) :
  (col m aliases = -1 /\
   forall a, In a aliases -> hmap_get m (lower (strip a)) < 0) \/
  (0 <= col m aliases /\
   exists pre a post,
     aliases = (pre ++ a :: post)%list /\
     col m aliases = hmap_get m (lower (strip a)) /\
     forall b, In b pre -> hmap_get m (lower (strip b)) < 0).
Proof.
  induction aliases as [|a rest IH]; simpl.
  - left. split; [reflexivity | intros a []].
  - destruct (Z.leb_spec 0 (hmap_get m (lower (strip a)))) as [Hge|Hlt].
    + right. split; [exact Hge|].
      exists [], a, rest. split; [reflexivity|]. split; [reflexivity|].
      intros b [].
    + destruct IH as [[Hnone Hall] | [Hge [pre [a' [post [Hsplit [Hcol Hpre]]]]]]].
      * left. split; [exact Hnone|].
        intros b [<-|Hin]; [exact Hlt | apply Hall; exact Hin].
      * right. split; [exact Hge|].
        exists (a :: pre), a', post. split; [simpl; congruence|].
        split; [exact Hcol|].
        intros b [<-|Hin]; [exact Hlt | apply Hpre; exact Hin].
Qed.

Lemma map_result_Ok {A B : Type} (f : A -> result B) (l : list A) (bs : list B) :
  map_result f l = Ok bs ->
  List.length bs = List.length l /\
  forall k a, nth_error l k = Some a ->
    exists b, nth_error bs k = Some b /\ f a = Ok b.
Proof.
  revert bs. induction l as [|a l IH]; intros bs H; simpl in H.
  - inversion H; subst. split; [reflexivity|]. intros [|k] a Hk; discriminate.
  - apply bind_Ok in H. destruct H as [b [Hb H]].
    apply bind_Ok in H. destruct H as [bs' [Hbs H]].
    inversion H; subst bs. destruct (IH _ Hbs) as [Hlen Hnth].
    split; [simpl; congruence|].
    intros [|k] a' Hk; simpl in Hk.
    + inversion Hk; subst a'. exists b. split; [reflexivity | exact Hb].
    + simpl. apply Hnth. exact Hk.
Qed.

Lemma col_found (hdr : row) (hdr_norm : list string) (aliases : list string) :
  map_result norm hdr = Ok hdr_norm ->
  column_found hdr (col (hmap hdr_norm) aliases) aliases.
Proof.
  intro Hmap. destruct (map_result_Ok _ _ _ Hmap) as [Hlen Hnth].
  assert (Habsent : forall key, hmap_get (hmap hdr_norm) key < 0 ->
            forall k h, nth_error hdr k = Some h -> norm h <> Ok key).
  { intros key Hneg k h Hk Hn.
    destruct (Hnth _ _ Hk) as [b [Hb Hfb]].
    rewrite Hn in Hfb. inversion Hfb; subst b.
    destruct (hmap_get_last hdr_norm key) as [[Hout _] | [k0 [Hget _]]].
    - apply Hout. eapply nth_error_In. exact Hb.
    - lia. }
  destruct (col_first_alias (hmap hdr_norm) aliases)
    as [[Hnone Hall] | [Hge [pre [a [post [Hsplit [Hcol Hpre]]]]]]].
  - left. split; [exact Hnone|].
    intros a k h Hin. apply Habsent. apply Hall. exact Hin.
  - right.
    destruct (hmap_get_last hdr_norm (lower (strip a)))
      as [[_ Hneg] | [k [Hget [Hk Hlast]]]]; [lia|].
    assert (Hklen : (k < List.length hdr)%nat).
    { rewrite <- Hlen. apply nth_error_Some. congruence. }
    destruct (nth_error hdr k) as [h|] eqn:Hh;
      [|apply nth_error_None in Hh; lia].
    exists k, pre, a, post, h.
    split; [congruence|]. split; [exact Hklen|]. split; [exact Hsplit|].
    split; [exact Hh|].
    destruct (Hnth _ _ Hh) as [b [Hb Hfb]].
    split; [congruence|]. split.
    + intros k' h' Hlt Hk' Hn.
      destruct (Hnth _ _ Hk') as [b' [Hb' Hfb']].
      apply (Hlast k' Hlt). congruence.
    + intros b0 k' h' Hin. apply Habsent. apply Hpre. exact Hin.
Qed.

Lemma columns_found_all (hdr : row) (c : cols) :
  columns hdr = Ok c ->
  Forall2 (column_found hdr) (cols_list c) alias_table.
Proof.
  unfold columns. intro H.
  apply bind_Ok in H. destruct H as [hdr_norm [Hmap H]].
  cbv beta in H.
  match type of H with Ok ?X = Ok _ => assert (Hc : c = X) by congruence end.
  rewrite Hc. unfold cols_list, alias_table. cbn [c_UID c_Crs
    c_Title c_Cat c_SDate c_STime c_EDate c_ETime c_TZ c_Loc c_Desc c_URL
    c_TRAN].
  repeat (constructor; [apply col_found; exact Hmap|]).
  constructor.
Qed.

(** X1.  Header lookup.  When the header row is accepted, each of the
    thirteen columns is -1, and then no header, normalized, is one of the
    field's aliases, or it is the number of a column of the header row:
    the last column whose normalized header is the first alias of the
    field (in the order of the alias list) that any header carries. *)
Theorem columns_point_into_header (hdr : row) (c : cols) :
  columns hdr = Ok c ->
  Forall2 (column_found hdr) (cols_list c) alias_table.
Proof.
  exact (columns_found_all hdr c).
Qed.

Lemma columns_point_into_header_witness :
  Forall2 (column_found Examples.header) (cols_list Examples.c) alias_table.
Proof.
  exact (columns_point_into_header Examples.header Examples.c eq_refl).
Defined.

(** ** Normal form of a header *)







Lemma lstrip_idem s : lstrip (lstrip s) = lstrip s.
Proof.
  induction s as [|c s IH]; simpl; [reflexivity|].
  destruct (isspace c) eqn:Hc; [exact IH|]. simpl. rewrite Hc. reflexivity.
Qed.

Lemma rstrip_cons c s :
  rstrip (String c s) =
  match rstrip s with
  | EmptyString => if isspace c then EmptyString else String c EmptyString
  | kept => String c kept
  end.
Proof. reflexivity. Qed.









(** ** What the loop keeps *)

Lemma count_lines_app p (a b : list string) :
  count_lines p (a ++ b) = count_lines p a + count_lines p b.
Proof.
  unfold count_lines. rewrite filter_app, length_app. lia.
Qed.

Lemma count_lines_nonneg p l : 0 <= count_lines p l.
Proof. unfold count_lines. lia. Qed.

Lemma head_lines_counts now_utc f :
  count_lines is_begin_event (head_lines now_utc f) = 1 /\
  count_lines is_end_event (head_lines now_utc f) = 0 /\
  count_lines is_dtstart (head_lines now_utc f) = 0 /\
  count_lines is_dtend (head_lines now_utc f) = 0.
Proof.
  unfold head_lines.
  destruct (nonempty (location f)), (nonempty (desc f)), (nonempty (url f)),
    (negb (Nat.eqb (List.length (categories f)) 0));
    repeat split; reflexivity.
Qed.

Section Loop.

Variable fromisoformat : string -> result datetime.

Lemma append_times_counts f b t :
  append_times fromisoformat empty_state f b = Ok t ->
  count_lines is_begin_event (lines t) = 0 /\
  count_lines is_end_event (lines t) = 1 /\
  count_lines is_dtstart (lines t) = event_count t /\
  count_lines is_dtend (lines t) = event_count t /\
  0 <= event_count t <= 1.
Proof.
  unfold append_times. destruct b; intro H.
  - apply bind_Ok in H. destruct H as [start0 [_ H]].
    apply bind_Ok in H. destruct H as [end0 [_ H]].
    destruct start0 as [start_d|]; [|discriminate].
    destruct end0 as [end_d|]; [|discriminate].
    apply bind_Ok in H. destruct H as [end_excl [_ H]].
    inversion H; subst t. repeat split; try reflexivity; simpl; lia.
  - apply bind_Ok in H. destruct H as [ds [_ H]].
    apply bind_Ok in H. destruct H as [de [_ H]].
    destruct ds as [s|]; [destruct de as [e|]|];
      inversion H; subst t; repeat split; try reflexivity; simpl; lia.
Qed.

Lemma extend_empty st : extend st empty_state = st.
Proof.
  destruct st as [l n]. unfold extend, empty_state. cbn [lines event_count].
  rewrite app_nil_r, Z.add_0_r. reflexivity.
Qed.

(** What a row appends does not depend on what is already there. *)
Lemma process_row_extend c now_utc st r :
  process_row fromisoformat c now_utc st r =
  extend_result st (process_row fromisoformat c now_utc empty_state r).
Proof.
  unfold process_row.
  destruct (accept fromisoformat c r) as [[f|]|e]; cbn [bind].
  - destruct (all_day fromisoformat f) as [b|e]; cbn [bind]; [|reflexivity].
    rewrite (append_times_extend _ (append_head now_utc st f)),
            (append_times_extend _ (append_head now_utc empty_state f)).
    destruct (append_times fromisoformat empty_state f b) as [t|e];
      [|reflexivity].
    unfold extend_result, extend. cbn [lines event_count].
    rewrite !append_head_lines, !append_head_count.
    unfold empty_state. cbn [lines event_count].
    rewrite <- app_assoc. reflexivity.
  - unfold extend_result. rewrite extend_empty. reflexivity.
  - reflexivity.
Qed.

(** The lines and the count one row adds. *)
Lemma process_row_counts c now_utc r t :
  process_row fromisoformat c now_utc empty_state r = Ok t ->
  count_lines is_begin_event (lines t) = count_lines is_end_event (lines t) /\
  count_lines is_dtstart (lines t) = event_count t /\
  count_lines is_dtend (lines t) = event_count t /\
  0 <= event_count t <= count_lines is_begin_event (lines t) /\
  count_lines is_begin_event (lines t) <= 1.
Proof.
  unfold process_row. intro H.
  apply bind_Ok in H. destruct H as [a [_ H]].
  destruct a as [f|].
  - apply bind_Ok in H. destruct H as [b [_ H]].
    rewrite append_times_extend in H.
    destruct (append_times fromisoformat empty_state f b) as [t'|e] eqn:Ht;
      [|discriminate].
    inversion H; subst t. unfold extend. cbn [lines event_count].
    rewrite append_head_lines, append_head_count.
    unfold empty_state. cbn [lines event_count app].
    rewrite !count_lines_app.
    destruct (head_lines_counts now_utc f) as [Hb [He [Hs Hd]]].
    destruct (append_times_counts _ _ _ Ht) as [Hb' [He' [Hs' [Hd' Hc]]]].
    rewrite Hb, He, Hs, Hd, Hb', He', Hs', Hd'. lia.
  - inversion H; subst t. unfold count_lines, empty_state. simpl. lia.
Qed.

Lemma process_rows_counts c now_utc rows : forall st st',
  process_rows fromisoformat c now_utc st rows = Ok st' ->
  exists added,
    lines st' = (lines st ++ added)%list /\
    count_lines is_begin_event added = count_lines is_end_event added /\
    count_lines is_dtstart added = event_count st' - event_count st /\
    count_lines is_dtend added = event_count st' - event_count st /\
    0 <= event_count st' - event_count st <= count_lines is_begin_event added /\
    count_lines is_begin_event added <= Z.of_nat (List.length rows).
Proof.
  induction rows as [|r rows IH]; intros st st' H; simpl in H.
  - inversion H; subst st'. exists []. rewrite app_nil_r.
    unfold count_lines. simpl. repeat split; lia.
  - apply bind_Ok in H. destruct H as [st1 [Hrow Hrest]].
    rewrite process_row_extend in Hrow.
    destruct (process_row fromisoformat c now_utc empty_state r) as [t|e] eqn:Ht;
      [|discriminate].
    inversion Hrow; subst st1. clear Hrow.
    destruct (process_row_counts _ _ _ _ Ht) as [Hbe [Hs [Hd [Hc Hb1]]]].
    destruct (IH _ _ Hrest) as [added [Hl [Hbe' [Hs' [Hd' [Hc' Hb']]]]]].
    unfold extend in Hl, Hs', Hd', Hc'. cbn [lines event_count] in *.
    exists (lines t ++ added)%list.
    rewrite Hl, <- app_assoc, !count_lines_app.
    split; [reflexivity|].
    change (Z.of_nat (List.length (r :: rows))) with (Z.of_nat (S (List.length rows))).
    lia.
Qed.

End Loop.

(** X3.  An entirely empty row (every cell [None] or the empty text, or
    no cell at all) is passed over before any column is read: whatever
    the columns and the width of the row, it cannot raise, it changes
    neither the lines nor the count, and the run is the run over the
    sheet without it. *)
Theorem blank_row_is_passed_over
    (fromisoformat : string -> result datetime) (c : cols) (now_utc : string)
    (st : state) (pre : list row) (r : row) (post : list row) :
  forallb is_blank r = true ->
  process_row fromisoformat c now_utc st r = Ok st /\
  run fromisoformat c now_utc (pre ++ r :: post) =
  run fromisoformat c now_utc (pre ++ post).
Proof.
  intro H.
  assert (Hskip : forall st', process_row fromisoformat c now_utc st' r = Ok st').
  { intro st'. apply process_row_skipped. apply accept_blank_row. exact H. }
  split; [apply Hskip|].
  unfold run. apply process_rows_without. exact Hskip.
Qed.

Lemma blank_row_is_passed_over_witness :
  process_row Examples.fromisoformat_ymd Examples.c Examples.now initial
    [CNone; CStr ""] = Ok initial /\
  run Examples.fromisoformat_ymd Examples.c Examples.now
    ([Examples.lecture] ++ [CNone; CStr ""] :: [Examples.lab]) =
  run Examples.fromisoformat_ymd Examples.c Examples.now
    ([Examples.lecture] ++ [Examples.lab]).
Proof.
  exact (blank_row_is_passed_over Examples.fromisoformat_ymd Examples.c
           Examples.now initial [Examples.lecture] [CNone; CStr ""]
           [Examples.lab] eq_refl).
Defined.

(** X4.  The loop only appends: when the rows are processed without an
    exception, the lines that were there are still there, in place, in
    front of what was added, and the counter has grown by at least zero
    and at most one per row; a run therefore starts with the calendar
    header and its count is between zero and the number of data rows. *)
Theorem rows_only_append
    (fromisoformat : string -> result datetime) (c : cols) (now_utc : string)
    (st st' : state) (rows : list row) :
  process_rows fromisoformat c now_utc st rows = Ok st' ->
  (exists added, lines st' = (lines st ++ added)%list) /\
  event_count st <= event_count st' <=
    event_count st + Z.of_nat (List.length rows) /\
  (st = initial ->
   firstn 6 (lines st') = header_lines /\
   0 <= event_count st' <= Z.of_nat (List.length rows)).
Proof.
  intro H.
  destruct (process_rows_counts _ _ _ _ _ _ H)
    as [added [Hl [_ [_ [_ [Hc Hb]]]]]].
  split; [exists added; exact Hl|].
  split; [lia|].
  intros ->. split.
  - rewrite Hl. reflexivity.
  - cbn [initial event_count] in Hc. lia.
Qed.

Lemma rows_only_append_witness :
  (exists added,
     lines (mkstate
        (header_lines ++
         ["BEGIN:VEVENT"; "UID:63c434fe559c8c09@youruni";
          "DTSTAMP:20240101T000000Z"; "SUMMARY:Lab"; "TRANSP:OPAQUE";
          "END:VEVENT"]) 0) = (lines initial ++ added)%list) /\
  event_count initial <= 0 <= event_count initial + Z.of_nat 2 /\
  (initial = initial ->
   firstn 6 (header_lines ++
         ["BEGIN:VEVENT"; "UID:63c434fe559c8c09@youruni";
          "DTSTAMP:20240101T000000Z"; "SUMMARY:Lab"; "TRANSP:OPAQUE";
          "END:VEVENT"]) = header_lines /\
   0 <= 0 <= Z.of_nat 2).
Proof.
  exact (rows_only_append Examples.fromisoformat_ymd Examples.c Examples.now
           initial _ [Examples.lab_bad_end_date; Examples.blank_title] eq_refl).
Defined.



(** ** Valid dates and times *)

Lemma valid_datetime_parts v :
  valid_datetime v = true ->
  valid_date (dt_date v) = true /\ valid_time (dt_time v) = true.
Proof. unfold valid_datetime. intro H. apply andb_prop in H. exact H. Qed.

Lemma datetime_new_Ok y m d H M S v :
  datetime_new y m d H M S = Ok v ->
  v = mkdatetime (mkdate y m d) (mktime H M S 0) /\ valid_datetime v = true.
Proof.
  unfold datetime_new. cbn [dt_date dt_time].
  destruct (valid_date (mkdate y m d) && valid_time (mktime H M S 0)) eqn:Hv;
    intro Hq; inversion Hq; subst v. split; [reflexivity | exact Hv].
Qed.

Lemma strptime_valid s fmt v :
  strptime s fmt = Ok v -> valid_datetime v = true.
Proof.
  unfold strptime. intro H.
  apply bind_Ok in H. destruct H as [its [_ H]]. cbv beta in H.
  destruct (match_items its s) as [[gs [|c r]]|]; try discriminate.
  apply datetime_new_Ok in H. apply H.
Qed.

Lemma for_formats_inv {A : Type} fmts s (conv : datetime -> A) after a :
  for_formats fmts s conv after = Ok a ->
  (exists fmt v, In fmt fmts /\ strptime s fmt = Ok v /\ a = conv v) \/
  after = Ok a.
Proof.
  induction fmts as [|fmt rest IH]; simpl; [right; assumption|].
  destruct (strptime s fmt) as [v|e] eqn:Hs; simpl.
  - intro H. inversion H; subst a. left. exists fmt, v. auto.
  - apply strptime_raises in Hs. subst e. simpl. intro H.
    destruct (IH H) as [[f [v [Hin Hv]]] | Ha]; [left | right; exact Ha].
    exists f, v. split; [right; exact Hin | exact Hv].
Qed.

Lemma valid_time_replace_second0 t :
  valid_time t = true -> valid_time (replace_second0 t) = true.
Proof.
  unfold valid_time, replace_second0. cbn [hour minute second microsecond].
  rewrite !andb_true_iff, !Z.leb_le. lia.
Qed.

Lemma valid_midnight : valid_time midnight = true.
Proof. reflexivity. Qed.

Lemma combine_Ok d t :
  valid_date d = true -> valid_time t = true ->
  combine d t = Ok (mkdatetime d (mktime (hour t) (minute t) 0 0)).
Proof.
  intros Hd Ht. unfold combine, datetime_new. cbn [dt_date dt_time].
  destruct d as [y m dd]. cbn [year month day]. rewrite Hd.
  replace (valid_time (mktime (hour t) (minute t) 0 0)) with true;
    [reflexivity|].
  symmetry. revert Ht. unfold valid_time.
  cbn [hour minute second microsecond].
  rewrite !andb_true_iff, !Z.leb_le. lia.
Qed.

Section Validity.

Variable fromisoformat : string -> result datetime.

(** The parser of the interpreter returns values its constructors
    accept. *)
Hypothesis fromisoformat_valid :
  forall s v, fromisoformat s = Ok v -> valid_datetime v = true.

Lemma to_date_valid (val : cell) (d : date) :
  valid_cell val = true ->
  _to_date fromisoformat val = Ok (Some d) -> valid_date d = true.
Proof.
  intros Hv H. unfold _to_date in H.
  destruct (is_blank val); [discriminate|].
  assert (Htext :
    for_formats date_formats (strip (str val)) (fun v => Some (dt_date v))
      (except_Exception
         (v <- fromisoformat (strip (str val)) ;; Ok (Some (dt_date v)))
         (Ok None)) = Ok (Some d) -> valid_date d = true).
  { intro Hf. apply for_formats_inv in Hf.
    destruct Hf as [[fmt [v [_ [Hs Hd]]]] | Hiso].
    - inversion Hd; subst d. apply strptime_valid in Hs.
      apply valid_datetime_parts in Hs. apply Hs.
    - destruct (fromisoformat (strip (str val))) as [v|e] eqn:Hi;
        simpl in Hiso; [|discriminate].
      inversion Hiso; subst d. apply fromisoformat_valid in Hi.
      apply valid_datetime_parts in Hi. apply Hi. }
  destruct val; try (exact (Htext H)).
  - inversion H; subst d. exact Hv.
  - inversion H; subst d. simpl in Hv. apply valid_datetime_parts in Hv.
    apply Hv.
Qed.

Lemma to_time_valid (val : cell) (t : daytime) :
  valid_cell val = true ->
  _to_time fromisoformat val = Ok (Some t) -> valid_time t = true.
Proof.
  intros Hv H. unfold _to_time in H.
  destruct (is_blank val); [discriminate|].
  assert (Htext :
    for_formats time_formats (strip (str val)) (fun v => Some (dt_time v))
      (except_Exception
         (v <- fromisoformat (strip (str val)) ;;
          Ok (Some (replace_second0 (dt_time v))))
         (Ok None)) = Ok (Some t) -> valid_time t = true).
  { intro Hf. apply for_formats_inv in Hf.
    destruct Hf as [[fmt [v [_ [Hs Hd]]]] | Hiso].
    - inversion Hd; subst t. apply strptime_valid in Hs.
      apply valid_datetime_parts in Hs. apply Hs.
    - destruct (fromisoformat (strip (str val))) as [v|e] eqn:Hi;
        simpl in Hiso; [|discriminate].
      inversion Hiso; subst t. apply fromisoformat_valid in Hi.
      apply valid_datetime_parts in Hi. apply valid_time_replace_second0.
      apply Hi. }
  destruct val; try (exact (Htext H)).
  - inversion H; subst t. simpl in Hv. apply valid_datetime_parts in Hv.
    apply valid_time_replace_second0. apply Hv.
  - inversion H; subst t. apply valid_time_replace_second0. exact Hv.
Qed.

(** On valid cells [parse_datetime] returns, and what it returns is the
    date with the hour and the minute of the time, midnight without
    one. *)
Lemma parse_datetime_valid (d_val t_val : cell) :
  valid_cell d_val = true -> valid_cell t_val = true ->
  exists o,
    parse_datetime fromisoformat d_val t_val = Ok o /\
    forall v, o = Some v ->
      exists d t,
        _to_date fromisoformat d_val = Ok (Some d) /\
        _to_time fromisoformat t_val = Ok t /\
        v = mkdatetime d (mktime (hour (or_else t midnight))
                                 (minute (or_else t midnight)) 0 0).
Proof.
  intros Hd Ht. unfold parse_datetime.
  destruct (to_date_Ok fromisoformat d_val) as [d0 Hd0]. rewrite Hd0.
  cbn [bind]. destruct d0 as [d|].
  - destruct (to_time_Ok fromisoformat t_val) as [t0 Ht0]. rewrite Ht0.
    cbn [bind].
    assert (Hvt : valid_time (or_else t0 midnight) = true).
    { destruct t0 as [t|]; simpl;
        [eapply to_time_valid; eassumption | reflexivity]. }
    rewrite (combine_Ok d _ (to_date_valid _ _ Hd Hd0) Hvt). cbn [bind].
    eexists. split; [reflexivity|].
    intros v Hv. inversion Hv; subst v. exists d, t0. auto.
  - exists None. split; [reflexivity | discriminate].
Qed.

End Validity.

Lemma fromisoformat_ymd_valid s v :
  Examples.fromisoformat_ymd s = Ok v -> valid_datetime v = true.
Proof.
  unfold Examples.fromisoformat_ymd.
  destruct (match_items _ s) as [[gs [|c r]]|]; try discriminate.
  intro H. apply datetime_new_Ok in H. apply H.
Qed.

(** X6.  The coercions never hand out an impossible date or time: when
    native cells hold valid values and [fromisoformat] returns valid
    values, every date [_to_date] returns is a calendar date of the years
    1 to 9999 and every time [_to_time] returns is a time of day, so a
    text such as 30/02/2024 or 24:00 is never accepted by the formats. *)
Theorem coercions_return_valid_values
    (fromisoformat : string -> result datetime) (val : cell) :
  (forall s v, fromisoformat s = Ok v -> valid_datetime v = true) ->
  valid_cell val = true ->
  (forall d, _to_date fromisoformat val = Ok (Some d) -> valid_date d = true) /\
  (forall t, _to_time fromisoformat val = Ok (Some t) -> valid_time t = true).
Proof.
  intros Hiso Hv. split.
  - intros d. apply to_date_valid; assumption.
  - intros t. apply to_time_valid; assumption.
Qed.

Lemma coercions_return_valid_values_witness :
  (forall d, _to_date Examples.fromisoformat_ymd (CStr "29/02/2024")
               = Ok (Some d) -> valid_date d = true) /\
  (forall t, _to_time Examples.fromisoformat_ymd (CStr "29/02/2024")
               = Ok (Some t) -> valid_time t = true).
Proof.
  exact (coercions_return_valid_values Examples.fromisoformat_ymd
           (CStr "29/02/2024") fromisoformat_ymd_valid eq_refl).
Defined.

(** X7.  Timed instants have minute precision: whatever [parse_datetime]
    returns has second and microsecond zero, also when the time was read
    from a text with seconds ("%H:%M:%S" keeps them in [_to_time]), so a
    rendered local time always ends in 00. *)
Theorem parse_datetime_drops_seconds
    (fromisoformat : string -> result datetime) (d_val t_val : cell)
    (v : datetime) :
  parse_datetime fromisoformat d_val t_val = Ok (Some v) ->
  second (dt_time v) = 0 /\ microsecond (dt_time v) = 0 /\
  (exists d t,
     _to_date fromisoformat d_val = Ok (Some d) /\
     _to_time fromisoformat t_val = Ok t /\
     dt_date v = d /\
     hour (dt_time v) = hour (or_else t midnight) /\
     minute (dt_time v) = minute (or_else t midnight)) /\
  fmt_local v =
    (fmt_date (dt_date v) ++ "T" ++ zpad 2 (hour (dt_time v)) ++
     zpad 2 (minute (dt_time v)) ++ "00")%string.
Proof.
  intro H. apply parse_datetime_Some in H.
  destruct H as [d [t [Hd [Ht Hc]]]].
  unfold combine in Hc. apply datetime_new_Ok in Hc. destruct Hc as [-> _].
  destruct d as [y m dd]. cbn [dt_date dt_time second microsecond hour minute
    year month day].
  split; [reflexivity|]. split; [reflexivity|]. split.
  - exists (mkdate y m dd), t. auto.
  - reflexivity.
Qed.

Lemma parse_datetime_drops_seconds_witness :
  _to_time Examples.fromisoformat_ymd (CStr "14:30:45")
    = Ok (Some (mktime 14 30 45 0)) /\
  second (dt_time (mkdatetime (mkdate 2024 3 4) (mktime 14 30 0 0))) = 0 /\
  fmt_local (mkdatetime (mkdate 2024 3 4) (mktime 14 30 0 0))
    = "20240304T143000".
Proof.
  split; [reflexivity|].
  pose proof (parse_datetime_drops_seconds Examples.fromisoformat_ymd
                (CDate (mkdate 2024 3 4)) (CStr "14:30:45")
                (mkdatetime (mkdate 2024 3 4) (mktime 14 30 0 0)) eq_refl)
    as [Hs [_ [_ Hf]]].
  split; [exact Hs | rewrite Hf; reflexivity].
Defined.

(** ** Sheets that cannot make the run fail *)

Lemma index_Ok (r : row) (j : Z) :
  0 <= j < Z.of_nat (List.length r) ->
  exists v, index r j = Ok v /\ In v r.
Proof.
  intro H. unfold index.
  destruct (nth_error r (Z.to_nat j)) as [v|] eqn:Hn.
  - exists v. split; [reflexivity | eapply nth_error_In; exact Hn].
  - apply nth_error_None in Hn. lia.
Qed.

Lemma cell_at_Ok (r : row) (j : Z) (dflt : cell) :
  j < Z.of_nat (List.length r) ->
  exists v, cell_at r j dflt = Ok v /\ (In v r \/ v = dflt).
Proof.
  intro H. unfold cell_at. destruct (Z.leb_spec 0 j).
  - destruct (index_Ok r j) as [v [Hv Hin]]; [lia|]. eauto.
  - eauto.
Qed.

Lemma text_at_Ok (r : row) (j : Z) (dflt : string) :
  j < Z.of_nat (List.length r) -> exists s, text_at r j dflt = Ok s.
Proof.
  intro H. unfold text_at. destruct (Z.leb_spec 0 j).
  - destruct (index_Ok r j) as [v [Hv _]]; [lia|]. rewrite Hv. simpl.
    destruct v; eauto.
  - eauto.
Qed.

Lemma cols_within_each (c : cols) (n : nat) :
  cols_within c n ->
  c_UID c < Z.of_nat n /\ c_Crs c < Z.of_nat n /\ c_Title c < Z.of_nat n /\
  c_Cat c < Z.of_nat n /\ c_SDate c < Z.of_nat n /\ c_STime c < Z.of_nat n /\
  c_EDate c < Z.of_nat n /\ c_ETime c < Z.of_nat n /\ c_TZ c < Z.of_nat n /\
  c_Loc c < Z.of_nat n /\ c_Desc c < Z.of_nat n /\ c_URL c < Z.of_nat n /\
  c_TRAN c < Z.of_nat n.
Proof.
  unfold cols_within, cols_list. intro H.
  repeat match goal with
         | H : Forall _ (_ :: _) |- _ => inversion H; subst; clear H
         end.
  repeat split; assumption.
Qed.

Lemma columns_within (hdr : row) (c : cols) :
  columns hdr = Ok c -> cols_within c (List.length hdr).
Proof.
  intro H. apply columns_found_all in H. unfold cols_within.
  revert H. generalize (cols_list c) alias_table.
  induction 1 as [|j al js als Hj _ IH]; constructor; [|exact IH].
  destruct Hj as [[-> _] | [k [pre [a [post [h [-> [Hk _]]]]]]]]; lia.
Qed.

Lemma columns_Ok (hdr : row) :
  forallb header_cell_ok hdr = true -> exists c, columns hdr = Ok c.
Proof.
  intro H. unfold columns.
  assert (Hm : exists l, map_result norm hdr = Ok l).
  { induction hdr as [|h hdr IH]; simpl; [eauto|].
    simpl in H. apply andb_prop in H. destruct H as [Hh Hrest].
    destruct (IH Hrest) as [l Hl]. rewrite Hl.
    assert (Hn : exists s, norm h = Ok s).
    { unfold norm, por.
      destruct h; simpl in Hh |- *; try (eexists; reflexivity);
        try discriminate;
        try (apply negb_true_iff in Hh; rewrite Hh; eexists; reflexivity).
      destruct (negb (s =? "")%string); eexists; reflexivity. }
    destruct Hn as [s Hs]. rewrite Hs. simpl. eauto. }
  destruct Hm as [l Hl]. rewrite Hl. simpl. eauto.
Qed.

Section Safety.

Variable fromisoformat : string -> result datetime.

Hypothesis fromisoformat_valid :
  forall s v, fromisoformat s = Ok v -> valid_datetime v = true.

(** A row that is kept has a title and a start date. *)
Lemma accept_Some c r f :
  accept fromisoformat c r = Ok (Some f) ->
  forallb is_blank r = false /\
  row_title c r = Ok (title f) /\ nonempty (title f) = true /\
  row_sdate c r = Ok (sdate f) /\
  (exists d, _to_date fromisoformat (sdate f) = Ok (Some d)) /\
  read_fields c r (title f) (sdate f) = Ok f.
Proof.
  unfold accept. intro H.
  destruct (forallb is_blank r); [discriminate|].
  apply bind_Ok in H. destruct H as [t [Ht H]].
  destruct (nonempty t) eqn:Hne; [|discriminate]. cbn [negb] in H.
  apply bind_Ok in H. destruct H as [sd0 [Hsd H]].
  apply bind_Ok in H. destruct H as [sd [Hd H]].
  destruct sd as [d|]; [|discriminate]. cbn [is_some negb] in H.
  apply bind_Ok in H. destruct H as [f' [Hf H]].
  inversion H; subst f'.
  assert (Htf : title f = t /\ sdate f = sd0).
  { unfold read_fields in Hf.
    repeat (apply bind_Ok in Hf; destruct Hf as [? [_ Hf]]).
    inversion Hf; subst f. split; reflexivity. }
  destruct Htf as [-> ->].
  repeat split; try assumption. exists d. exact Hd.
Qed.

Lemma read_fields_Ok c r title0 sdate0 :
  cols_within c (List.length r) -> Forall (fun v => valid_cell v = true) r ->
  valid_cell sdate0 = true ->
  exists f, read_fields c r title0 sdate0 = Ok f /\
            valid_cell (sdate f) = true /\ valid_cell (stime f) = true /\
            valid_cell (edate f) = true /\ valid_cell (etime f) = true.
Proof.
  intros Hc Hr Hs. apply cols_within_each in Hc.
  destruct Hc as [H1 [H2 [H3 [H4 [H5 [H6 [H7 [H8 [H9 [H10 [H11 [H12 H13]]]]]]]]]]]].
  assert (Hvalid : forall j dflt v, valid_cell dflt = true ->
            cell_at r j dflt = Ok v -> valid_cell v = true).
  { intros j dflt v Hd Hv. unfold cell_at in Hv.
    destruct (0 <=? j); [|inversion Hv; subst; exact Hd].
    unfold index in Hv. destruct (nth_error r (Z.to_nat j)) eqn:Hn;
      inversion Hv; subst.
    rewrite Forall_forall in Hr. apply Hr. eapply nth_error_In. exact Hn. }
  unfold read_fields.
  destruct (text_at_Ok r (c_UID c) "" H1) as [x1 ->]. cbn [bind].
  destruct (text_at_Ok r (c_Crs c) "" H2) as [x2 ->]. cbn [bind].
  destruct (text_at_Ok r (c_Cat c) "" H4) as [x3 ->]. cbn [bind].
  destruct (cell_at_Ok r (c_STime c) (CStr "") H6) as [x4 [E4 _]].
  rewrite E4. cbn [bind].
  destruct (cell_at_Ok r (c_EDate c) (CStr "") H7) as [x5 [E5 _]].
  rewrite E5. cbn [bind].
  destruct (cell_at_Ok r (c_ETime c) (CStr "") H8) as [x6 [E6 _]].
  rewrite E6. cbn [bind].
  destruct (text_at_Ok r (c_TZ c) DEFAULT_TZ H9) as [x7 ->]. cbn [bind].
  destruct (text_at_Ok r (c_Loc c) "" H10) as [x8 ->]. cbn [bind].
  destruct (text_at_Ok r (c_Desc c) "" H11) as [x9 ->]. cbn [bind].
  destruct (text_at_Ok r (c_URL c) "" H12) as [x10 ->]. cbn [bind].
  assert (Ht : exists b, (if 0 <=? c_TRAN c
                          then v <- index r (c_TRAN c) ;; Ok (truthy v)
                          else Ok false) = Ok b).
  { destruct (Z.leb_spec 0 (c_TRAN c)); [|eauto].
    destruct (index_Ok r (c_TRAN c)) as [v [Hv _]]; [lia|].
    rewrite Hv. simpl. eauto. }
  destruct Ht as [b ->]. cbn [bind].
  eexists. split; [reflexivity|]. cbn [sdate stime edate etime].
  split; [exact Hs|].
  split; [exact (Hvalid _ (CStr "") _ eq_refl E4)|].
  split; [exact (Hvalid _ (CStr "") _ eq_refl E5)
         | exact (Hvalid _ (CStr "") _ eq_refl E6)].
Qed.

Lemma accept_Ok c r :
  cols_within c (List.length r) -> Forall (fun v => valid_cell v = true) r ->
  exists a, accept fromisoformat c r = Ok a /\
    forall f, a = Some f ->
      valid_cell (sdate f) = true /\ valid_cell (stime f) = true /\
      valid_cell (edate f) = true /\ valid_cell (etime f) = true.
Proof.
  intros Hc Hr. unfold accept.
  destruct (forallb is_blank r); [exists None; split; [reflexivity | discriminate]|].
  pose proof (cols_within_each _ _ Hc) as Hall.
  destruct Hall as [_ [_ [Ht [_ [Hs _]]]]].
  unfold row_title. destruct (text_at_Ok r (c_Title c) "" Ht) as [t ->].
  cbn [bind].
  destruct (nonempty t); cbn [negb];
    [|exists None; split; [reflexivity | discriminate]].
  unfold row_sdate.
  destruct (cell_at_Ok r (c_SDate c) CNone Hs) as [sd [Hsd Hin]].
  rewrite Hsd. cbn [bind].
  assert (Hvsd : valid_cell sd = true).
  { destruct Hin as [Hin | ->]; [|reflexivity].
    rewrite Forall_forall in Hr. apply Hr. exact Hin. }
  destruct (to_date_Ok fromisoformat sd) as [d ->]. cbn [bind].
  destruct d as [d|]; cbn [is_some negb];
    [|exists None; split; [reflexivity | discriminate]].
  destruct (read_fields_Ok c r t sd Hc Hr Hvsd) as [f [Hf Hv]].
  rewrite Hf. cbn [bind]. exists (Some f). split; [reflexivity|].
  intros f' Hf'. inversion Hf'; subst f'. exact Hv.
Qed.

Lemma valid_por a b :
  valid_cell a = true -> valid_cell b = true -> valid_cell (por a b) = true.
Proof. unfold por. destruct (truth a); auto. Qed.

(** Once a row is kept, writing its dates can only fail on the day
    after 9999-12-31. *)
Lemma append_times_safe st f b d :
  _to_date fromisoformat (sdate f) = Ok (Some d) ->
  valid_cell (sdate f) = true -> valid_cell (stime f) = true ->
  valid_cell (edate f) = true -> valid_cell (etime f) = true ->
  (exists st', append_times fromisoformat st f b = Ok st') \/
  append_times fromisoformat st f b = Raise OverflowError.
Proof.
  intros Hd Hsd Hst Hed Het. unfold append_times. destruct b.
  - rewrite Hd. cbn [bind].
    assert (He : exists e,
      (if truth (edate f)
       then e <- _to_date fromisoformat (edate f);;
            Ok match e with Some d0 => Some d0 | None => Some d end
       else Ok (Some d)) = Ok (Some e)).
    { destruct (truth (edate f)); [|eauto].
      destruct (to_date_Ok fromisoformat (edate f)) as [e ->]. cbn [bind].
      destruct e; eauto. }
    destruct He as [e ->]. cbn [bind].
    destruct (add_one_day e) as [x|err] eqn:Hadd; cbn [bind].
    + left. eauto.
    + right. unfold add_one_day in Hadd.
      destruct (day e <? days_in_month (year e) (month e)); [discriminate|].
      destruct (month e <? 12); [discriminate|].
      destruct (year e <? MAXYEAR); [discriminate | congruence].
  - left.
    destruct (parse_datetime_valid fromisoformat fromisoformat_valid
                (sdate f) (stime f) Hsd Hst) as [o1 [-> _]]. cbn [bind].
    destruct (parse_datetime_valid fromisoformat fromisoformat_valid
                (por (edate f) (sdate f))
                (por (por (etime f) (stime f)) (CStr "00:00")))
      as [o2 [-> _]];
      [apply valid_por; assumption
      | apply valid_por; [apply valid_por; assumption | reflexivity] |].
    cbn [bind]. destruct o1; [destruct o2|]; eauto.
Qed.

Lemma process_row_safe c now_utc st r :
  cols_within c (List.length r) -> Forall (fun v => valid_cell v = true) r ->
  (exists st', process_row fromisoformat c now_utc st r = Ok st') \/
  process_row fromisoformat c now_utc st r = Raise OverflowError.
Proof.
  intros Hc Hr. unfold process_row.
  destruct (accept_Ok c r Hc Hr) as [a [Ha Hv]].
  rewrite Ha. cbn [bind]. destruct a as [f|]; [|left; eauto].
  destruct (Hv f eq_refl) as [Hsd [Hst [Hed Het]]].
  destruct (accept_Some _ _ _ Ha) as [_ [_ [_ [_ [[d Hd] _]]]]].
  assert (Hday : exists b, all_day fromisoformat f = Ok b).
  { unfold all_day.
    destruct (to_time_Ok fromisoformat (stime f)) as [ts ->]. cbn [bind].
    destruct (is_some ts); [eauto|].
    destruct (to_time_Ok fromisoformat (etime f)) as [te ->]. cbn [bind].
    eauto. }
  destruct Hday as [b ->]. cbn [bind].
  eapply append_times_safe; eassumption.
Qed.

Lemma process_rows_safe c now_utc rows : forall st,
  Forall (fun r => cols_within c (List.length r) /\
                   Forall (fun v => valid_cell v = true) r) rows ->
  (exists st', process_rows fromisoformat c now_utc st rows = Ok st') \/
  process_rows fromisoformat c now_utc st rows = Raise OverflowError.
Proof.
  induction rows as [|r rows IH]; intros st H; simpl; [left; eauto|].
  inversion H as [|? ? [Hc Hr] Hrest]; subst.
  destruct (process_row_safe c now_utc st r Hc Hr) as [[st1 ->] | ->];
    cbn [bind]; [apply IH; exact Hrest | right; reflexivity].
Qed.

End Safety.

(** X8.  A sheet cannot make the script fail on a missing cell or a bad
    value: when every header cell is text or empty, every data row is at
    least as wide as the header row, native cells hold valid values and
    [fromisoformat] returns valid values, [main] returns a document and a
    count, or raises OverflowError (an all-day row whose end date is
    9999-12-31); it raises no IndexError, ValueError, TypeError or
    AttributeError. *)
Theorem well_formed_sheet_only_overflows
    (fromisoformat : string -> result datetime) (hdr : row) (now_utc : string)
    (rows : list row) :
  (forall s v, fromisoformat s = Ok v -> valid_datetime v = true) ->
  forallb header_cell_ok hdr = true ->
  Forall (fun r => (List.length hdr <= List.length r)%nat /\
                   Forall (fun v => valid_cell v = true) r) rows ->
  (exists doc n, main fromisoformat hdr now_utc rows = Ok (doc, n)) \/
  main fromisoformat hdr now_utc rows = Raise OverflowError.
Proof.
  intros Hiso Hhdr Hrows. unfold main.
  destruct (columns_Ok hdr Hhdr) as [c Hc]. rewrite Hc. cbn [bind].
  pose proof (columns_within _ _ Hc) as Hw.
  assert (Hall : Forall (fun r => cols_within c (List.length r) /\
                          Forall (fun v => valid_cell v = true) r) rows).
  { eapply Forall_impl; [|exact Hrows]. intros r [Hlen Hv].
    split; [|exact Hv]. unfold cols_within in *.
    eapply Forall_impl; [|exact Hw]. intros j Hj. cbv beta in *. lia. }
  unfold run.
  destruct (process_rows_safe fromisoformat Hiso c now_utc rows initial Hall)
    as [[st ->] | ->]; cbn [bind]; [left; eauto | right; reflexivity].
Qed.

Lemma well_formed_sheet_only_overflows_witness :
  (exists doc n,
     main Examples.fromisoformat_ymd Examples.header Examples.now
       [Examples.lecture; Examples.lab_bad_end_date; Examples.bad_start_date]
     = Ok (doc, n)) \/
  main Examples.fromisoformat_ymd Examples.header Examples.now
    [Examples.lecture; Examples.lab_bad_end_date; Examples.bad_start_date]
  = Raise OverflowError.
Proof.
  apply (well_formed_sheet_only_overflows Examples.fromisoformat_ymd
           Examples.header Examples.now
           [Examples.lecture; Examples.lab_bad_end_date;
            Examples.bad_start_date] fromisoformat_ymd_valid eq_refl).
  repeat constructor.
Defined.

(** ** Edges of the event block *)

Lemma accept_Some_plain (fromisoformat : string -> result datetime) c r f :
  accept fromisoformat c r = Ok (Some f) ->
  nonempty (title f) = true /\
  exists d, _to_date fromisoformat (sdate f) = Ok (Some d).
Proof.
  unfold accept. intro H.
  destruct (forallb is_blank r); [discriminate|].
  apply bind_Ok in H. destruct H as [t [Ht H]].
  destruct (nonempty t) eqn:Hne; [|discriminate]. cbn [negb] in H.
  apply bind_Ok in H. destruct H as [sd0 [Hsd H]].
  apply bind_Ok in H. destruct H as [sd [Hd H]].
  destruct sd as [d|]; [|discriminate]. cbn [is_some negb] in H.
  apply bind_Ok in H. destruct H as [f' [Hf H]].
  inversion H; subst f'.
  unfold read_fields in Hf.
  repeat (apply bind_Ok in Hf; destruct Hf as [? [_ Hf]]).
  inversion Hf; subst f. cbn [title sdate]. split; [exact Hne|].
  exists d. exact Hd.
Qed.

Lemma nonempty_app_l a b : nonempty a = true -> nonempty (a ++ b) = true.
Proof. destruct a; [discriminate | reflexivity]. Qed.

(** X9.  The last day of the calendar stops the run: an all-day row that
    is kept and whose end date (its start date when the end-date cell is
    blank or does not parse) is 9999-12-31 raises OverflowError when one
    day is added, and with it the run over any sheet whose earlier rows
    went through: nothing is written for the rows before or after it. *)
Theorem last_day_of_calendar_stops_the_run
    (fromisoformat : string -> result datetime) (c : cols) (now_utc : string)
    (pre : list row) (r : row) (post : list row) (f : fields)
    (start_d : date) (explicit_end : option date) (st1 : state) :
  accept fromisoformat c r = Ok (Some f) ->
  all_day fromisoformat f = Ok true ->
  _to_date fromisoformat (sdate f) = Ok (Some start_d) ->
  _to_date fromisoformat (edate f) = Ok explicit_end ->
  (if truth (edate f) then or_else explicit_end start_d else start_d)
    = mkdate 9999 12 31 ->
  run fromisoformat c now_utc pre = Ok st1 ->
  process_row fromisoformat c now_utc st1 r = Raise OverflowError /\
  run fromisoformat c now_utc (pre ++ r :: post) = Raise OverflowError.
Proof.
  intros Hacc Hday Hs He Hlast Hpre.
  assert (Hrow : forall st,
            process_row fromisoformat c now_utc st r = Raise OverflowError).
  { intro st. rewrite (process_row_accepted _ _ _ _ _ _ Hacc), Hday.
    cbn [bind]. unfold append_times. rewrite Hs. cbn [bind].
    assert (Hend : (if truth (edate f)
                    then e <- _to_date fromisoformat (edate f);;
                         Ok match e with
                            | Some d => Some d
                            | None => Some start_d
                            end
                    else Ok (Some start_d)) = Ok (Some (mkdate 9999 12 31))).
    { rewrite <- Hlast. destruct (truth (edate f)); [|reflexivity].
      rewrite He. destruct explicit_end; reflexivity. }
    rewrite Hend. reflexivity. }
  split; [apply Hrow|].
  unfold run in *. rewrite process_rows_app, Hpre. cbn [bind process_rows].
  rewrite Hrow. reflexivity.
Qed.

Lemma last_day_of_calendar_stops_the_run_witness :
  process_row Examples.fromisoformat_ymd Examples.c Examples.now
    (mkstate
       (header_lines ++
        ["BEGIN:VEVENT"; "UID:63b0a28f0278007c@youruni";
         "DTSTAMP:20240101T000000Z";
         ("SUMMARY:CS101 " ++ em_dash ++ " Intro Lecture")%string;
         "TRANSP:OPAQUE"; "CATEGORIES:CS101";
         "DTSTART;VALUE=DATE:20240304"; "DTEND;VALUE=DATE:20240305";
         "END:VEVENT"]) 1)
    (Examples.talk (CStr "9999-12-31")) = Raise OverflowError /\
  run Examples.fromisoformat_ymd Examples.c Examples.now
    ([Examples.lecture] ++ Examples.talk (CStr "9999-12-31") :: [Examples.lab])
  = Raise OverflowError.
Proof.
  exact (last_day_of_calendar_stops_the_run Examples.fromisoformat_ymd
           Examples.c Examples.now [Examples.lecture]
           (Examples.talk (CStr "9999-12-31")) [Examples.lab]
           (mkfields "Talk" (CStr "9999-12-31") "" "" "" CNone CNone CNone
                     DEFAULT_TZ "" "" "" false)
           (mkdate 9999 12 31) None _
           eq_refl eq_refl eq_refl eq_refl eq_refl eq_refl).
Defined.

(** X10.  Every block in the output comes from a row with a title and a
    start date: when a row adds lines, its trimmed title is not empty,
    its start-date cell parses, and the block carries a SUMMARY line
    whose text is not empty. *)
Theorem block_written_has_title_and_start
    (fromisoformat : string -> result datetime) (c : cols) (now_utc : string)
    (st st' : state) (r : row) :
  process_row fromisoformat c now_utc st r = Ok st' ->
  lines st' <> lines st ->
  exists f d,
    accept fromisoformat c r = Ok (Some f) /\
    nonempty (title f) = true /\
    _to_date fromisoformat (sdate f) = Ok (Some d) /\
    nonempty (summary f) = true /\
    In ("SUMMARY:" ++ summary f) (lines st').
Proof.
  intros Hrow Hdiff.
  destruct (accept fromisoformat c r) as [[f|]|e] eqn:Hacc.
  - destruct (accept_Some_plain _ _ _ _ Hacc) as [Ht [d Hd]].
    exists f, d. split; [reflexivity|]. split; [exact Ht|].
    split; [exact Hd|]. split.
    + unfold summary. destruct (nonempty (course f)) eqn:Hc; [|exact Ht].
      apply nonempty_app_l. exact Hc.
    + destruct (process_row_lines _ _ _ _ _ _ _ Hacc Hrow)
        as [b [t [_ [_ [Hl _]]]]].
      rewrite Hl. apply in_or_app. right. apply in_or_app. left.
      unfold head_lines. apply in_or_app. left. simpl. tauto.
  - rewrite (process_row_skipped _ _ _ _ _ Hacc) in Hrow.
    inversion Hrow; subst st'. contradiction.
  - unfold process_row in Hrow. rewrite Hacc in Hrow. discriminate.
Qed.

Lemma block_written_has_title_and_start_witness :
  exists f d,
    accept Examples.fromisoformat_ymd Examples.c Examples.lab_bad_end_date
      = Ok (Some f) /\
    nonempty (title f) = true /\
    _to_date Examples.fromisoformat_ymd (sdate f) = Ok (Some d) /\
    nonempty (summary f) = true /\
    In ("SUMMARY:" ++ summary f)
       (header_lines ++
        ["BEGIN:VEVENT"; "UID:63c434fe559c8c09@youruni";
         "DTSTAMP:20240101T000000Z"; "SUMMARY:Lab"; "TRANSP:OPAQUE";
         "END:VEVENT"]).
Proof.
  apply (block_written_has_title_and_start Examples.fromisoformat_ymd
           Examples.c Examples.now initial
           (mkstate
              (header_lines ++
               ["BEGIN:VEVENT"; "UID:63c434fe559c8c09@youruni";
                "DTSTAMP:20240101T000000Z"; "SUMMARY:Lab"; "TRANSP:OPAQUE";
                "END:VEVENT"]) 0)
           Examples.lab_bad_end_date eq_refl).
  intro H. apply (f_equal (@List.length string)) in H. vm_compute in H.
  discriminate.
Defined.

(** X11.  A timed row with a start time and nothing in the end-date and
    end-time cells gets an event that ends at the instant it starts:
    DTSTART and DTEND carry the same local time. *)
Theorem timed_row_without_end_has_no_duration
    (fromisoformat : string -> result datetime) (c : cols) (now_utc : string)
    (st st' : state) (r : row) (f : fields) :
  accept fromisoformat c r = Ok (Some f) ->
  all_day fromisoformat f = Ok false ->
  truth (stime f) = true ->
  truth (edate f) = false -> truth (etime f) = false ->
  process_row fromisoformat c now_utc st r = Ok st' ->
  exists s,
    parse_datetime fromisoformat (sdate f) (stime f) = Ok (Some s) /\
    lines st' =
      (lines st ++ head_lines now_utc f ++
       [("DTSTART;TZID=" ++ tz f ++ ":" ++ fmt_local s)%string;
        ("DTEND;TZID=" ++ tz f ++ ":" ++ fmt_local s)%string;
        "END:VEVENT"])%list /\
    event_count st' = event_count st + 1.
Proof.
  intros Hacc Hday Hst Hed Het Hrow.
  rewrite (process_row_accepted _ _ _ _ _ _ Hacc), Hday in Hrow.
  cbn [bind] in Hrow. unfold append_times in Hrow.
  unfold por in Hrow. rewrite Hed, Het, Hst in Hrow.
  destruct (accept_Some_plain _ _ _ _ Hacc) as [_ [d Hd]].
  destruct (parse_datetime fromisoformat (sdate f) (stime f)) as [o|e] eqn:Hp;
    [|discriminate].
  cbn [bind] in Hrow.
  destruct o as [s|].
  - inversion Hrow; subst st'. exists s. split; [reflexivity|].
    unfold append. cbn [lines event_count].
    rewrite append_head_lines, append_head_count, <- !app_assoc.
    split; reflexivity.
  - exfalso. unfold parse_datetime in Hp. rewrite Hd in Hp. cbn [bind] in Hp.
    destruct (_to_time fromisoformat (stime f)) as [t|e]; cbn [bind] in Hp;
      [|discriminate].
    destruct (combine d (or_else t midnight)); discriminate.
Qed.

Lemma timed_row_without_end_has_no_duration_witness :
  exists s,
    parse_datetime Examples.fromisoformat_ymd (CDate Examples.d_4_march)
      (CStr "14:00") = Ok (Some s) /\
    (header_lines ++
     ["BEGIN:VEVENT"; "UID:554d28f620234c20@youruni";
      "DTSTAMP:20240101T000000Z"; "SUMMARY:Lab"; "TRANSP:OPAQUE";
      "DTSTART;TZID=Australia/Sydney:20240304T140000";
      "DTEND;TZID=Australia/Sydney:20240304T140000"; "END:VEVENT"])%list =
    (header_lines ++
     ["BEGIN:VEVENT";
      ("UID:" ++ make_uid [CStr ""; CStr "Lab"; CDate Examples.d_4_march;
                           CNone; CStr "14:00"; CNone; CStr ""])%string;
      "DTSTAMP:20240101T000000Z"; "SUMMARY:Lab"; "TRANSP:OPAQUE"] ++
     [("DTSTART;TZID=" ++ DEFAULT_TZ ++ ":" ++ fmt_local s)%string;
      ("DTEND;TZID=" ++ DEFAULT_TZ ++ ":" ++ fmt_local s)%string;
      "END:VEVENT"])%list /\
    1 = 0 + 1.
Proof.
  exact (timed_row_without_end_has_no_duration Examples.fromisoformat_ymd
           Examples.c Examples.now initial
           (mkstate
              (header_lines ++
               ["BEGIN:VEVENT"; "UID:554d28f620234c20@youruni";
                "DTSTAMP:20240101T000000Z"; "SUMMARY:Lab"; "TRANSP:OPAQUE";
                "DTSTART;TZID=Australia/Sydney:20240304T140000";
                "DTEND;TZID=Australia/Sydney:20240304T140000"; "END:VEVENT"])
              1)
           [CNone; CStr "Lab"; CDate Examples.d_4_march; CStr "14:00"; CNone;
            CNone; CNone; CNone]
           (mkfields "Lab" (CDate Examples.d_4_march) "" "" "" (CStr "14:00")
                     CNone CNone DEFAULT_TZ "" "" "" false)
           eq_refl eq_refl eq_refl eq_refl eq_refl eq_refl).
Defined.

(** ** Dates as text *)

Lemma forallb_below (P : Z -> bool) (n : nat) :
  forallb P (below n) = true ->
  forall z, 0 <= z < Z.of_nat n -> P z = true.
Proof.
  intros H z Hz. rewrite forallb_forall in H. apply H.
  unfold below. replace z with (Z.of_nat (Z.to_nat z)) by lia.
  apply in_map. apply in_seq. lia.
Qed.

Lemma four_digits_below_10000 z : 0 <= z < 10000 -> four_digits_ok z = true.
Proof.
  intro Hz. revert z Hz.
  assert (Hn : Z.of_nat (Z.to_nat 10000) = 10000) by reflexivity.
  rewrite <- Hn.
  apply (forallb_below four_digits_ok (Z.to_nat 10000)). vm_compute.
  reflexivity.
Qed.

Lemma two_digits_below_100 z : 0 <= z < 100 -> two_digits_ok z = true.
Proof.
  apply (forallb_below two_digits_ok 100). vm_compute. reflexivity.
Qed.

Lemma month_day_below m d :
  1 <= m <= 12 -> 1 <= d <= 31 -> month_day_ok m d = true.
Proof.
  intros Hm Hd.
  assert (H : forallb (fun m => forallb (fun d =>
                 (m =? 0) || (d =? 0) || month_day_ok m d) (below 32))
                (below 13) = true) by (vm_compute; reflexivity).
  pose proof (forallb_below _ 13 H m ltac:(lia)) as H1. cbv beta in H1.
  pose proof (forallb_below _ 32 H1 d ltac:(lia)) as H2. cbv beta in H2.
  destruct (Z.eqb_spec m 0); [lia|]. destruct (Z.eqb_spec d 0); [lia|].
  exact H2.
Qed.

Lemma string_length_app (a b : string) :
  String.length (a ++ b) = (String.length a + String.length b)%nat.
Proof.
  induction a as [|c a IH]; simpl; [reflexivity | rewrite IH; reflexivity].
Qed.

Lemma all_chars_app p a b :
  all_chars p (a ++ b) = all_chars p a && all_chars p b.
Proof.
  induction a as [|c a IH]; simpl; [reflexivity|].
  rewrite IH, andb_assoc. reflexivity.
Qed.

Lemma all_chars_impl (p q : ascii -> bool) s :
  (forall c, p c = true -> q c = true) ->
  all_chars p s = true -> all_chars q s = true.
Proof.
  intro Hpq. induction s as [|c s IH]; simpl; [reflexivity|].
  intro H. apply andb_prop in H. destruct H as [Hc Hs].
  rewrite (Hpq c Hc), (IH Hs). reflexivity.
Qed.

Lemma isdigit_not_space c : isdigit c = true -> negb (isspace c) = true.
Proof.
  destruct c as [b0 b1 b2 b3 b4 b5 b6 b7].
  destruct b0, b1, b2, b3, b4, b5, b6, b7; simpl; intro H;
    try reflexivity; discriminate.
Qed.

Lemma strip_no_space s :
  all_chars (fun c => negb (isspace c)) s = true -> strip s = s.
Proof.
  intro H. unfold strip.
  assert (Hl : lstrip s = s).
  { destruct s as [|c s]; [reflexivity|]. simpl in H |- *.
    apply andb_prop in H. destruct H as [Hc _].
    apply negb_true_iff in Hc. rewrite Hc. reflexivity. }
  rewrite Hl. clear Hl.
  induction s as [|c s IH]; [reflexivity|].
  simpl in H. apply andb_prop in H. destruct H as [Hc Hs].
  rewrite rstrip_cons, (IH Hs). apply negb_true_iff in Hc.
  destruct s; [rewrite Hc|]; reflexivity.
Qed.

Lemma match_alt_four_digits g rest :
  String.length g = 4%nat -> all_chars isdigit g = true ->
  match_alt [Digit; Digit; Digit; Digit] (g ++ rest) = Some (g, rest).
Proof.
  intros Hl Hd.
  destruct g as [|c1 [|c2 [|c3 [|c4 [|c5 g]]]]]; try discriminate.
  simpl in Hd.
  repeat (apply andb_prop in Hd; destruct Hd as [? Hd]).
  simpl.
  repeat match goal with H : isdigit _ = true |- _ => rewrite H; clear H end.
  reflexivity.
Qed.

Lemma valid_date_bounds d :
  valid_date d = true ->
  1 <= year d <= 9999 /\ 1 <= month d <= 12 /\ 1 <= day d <= 31.
Proof.
  unfold valid_date, MINYEAR, MAXYEAR.
  rewrite !andb_true_iff, !Z.leb_le.
  pose proof (days_in_month_bounds (year d) (month d)). lia.
Qed.

(** [str(d)] of a valid date is read back by the first format. *)
Lemma strptime_str_date d :
  valid_date d = true ->
  strptime (str_date d) "%Y-%m-%d" = Ok (mkdatetime d midnight).
Proof.
  intro Hv. destruct (valid_date_bounds d Hv) as [Hy [Hm Hd]].
  pose proof (four_digits_below_10000 (year d) ltac:(lia)) as H4.
  unfold four_digits_ok in H4.
  apply andb_prop in H4. destruct H4 as [H4 Hint].
  apply andb_prop in H4. destruct H4 as [Hlen Hdig].
  apply Nat.eqb_eq in Hlen. apply Z.eqb_eq in Hint.
  pose proof (month_day_below (month d) (day d) Hm Hd) as Hmd.
  unfold month_day_ok in Hmd.
  destruct (match_items month_day_items
              (zpad 2 (month d) ++ "-" ++ zpad 2 (day d)))
    as [[gs [|c r]]|] eqn:Hitems; try discriminate.
  repeat (apply andb_prop in Hmd; destruct Hmd as [Hmd ?]).
  repeat match goal with
         | H : (_ =? _) = true |- _ => apply Z.eqb_eq in H
         end.
  unfold strptime.
  change (pattern "%Y-%m-%d")
    with (Ok (Group "Y" [[Digit; Digit; Digit; Digit]] :: Literal "-"
              :: month_day_items)).
  cbn [bind]. unfold str_date.
  cbn [match_items first_alt].
  rewrite (match_alt_four_digits _ _ Hlen Hdig).
  change ("-" ++ zpad 2 (month d) ++ "-" ++ zpad 2 (day d))%string
    with (String "-" (zpad 2 (month d) ++ "-" ++ zpad 2 (day d))).
  cbn [Ascii.eqb Bool.eqb]. rewrite Hitems.
  cbn [field Ascii.eqb Bool.eqb]. rewrite Hint.
  repeat match goal with H : field _ _ gs = _ |- _ => rewrite H; clear H end.
  unfold datetime_new. cbn [dt_date dt_time].
  destruct d as [y m dd]. cbn [year month day] in *. rewrite Hv. reflexivity.
Qed.

Lemma str_date_chars d :
  valid_date d = true ->
  all_chars (fun c => negb (isspace c)) (str_date d) = true /\
  str_date d <> "".
Proof.
  intro Hv. destruct (valid_date_bounds d Hv) as [Hy [Hm Hd]].
  pose proof (four_digits_below_10000 (year d) ltac:(lia)) as H4.
  pose proof (two_digits_below_100 (month d) ltac:(lia)) as H2m.
  pose proof (two_digits_below_100 (day d) ltac:(lia)) as H2d.
  unfold four_digits_ok in H4. unfold two_digits_ok in H2m, H2d.
  repeat match goal with
         | H : _ && _ = true |- _ => apply andb_prop in H; destruct H
         end.
  split.
  - unfold str_date. rewrite !all_chars_app.
    rewrite (all_chars_impl isdigit _ (zpad 4 (year d)) isdigit_not_space)
      by assumption.
    rewrite (all_chars_impl isdigit _ (zpad 2 (month d)) isdigit_not_space)
      by assumption.
    rewrite (all_chars_impl isdigit _ (zpad 2 (day d)) isdigit_not_space)
      by assumption.
    reflexivity.
  - unfold str_date. destruct (zpad 4 (year d)); [discriminate|].
    discriminate.
Qed.

(** X12.  A date survives being written as text: for every valid date,
    [_to_date] reads the text [str] gives for it (YYYY-MM-DD) back as the
    same date, through the first format and without reaching
    [fromisoformat]; a native date cell and the cell holding its text are
    the same start date and, since the uid is taken over that text, the
    same uid field. *)
Theorem date_text_round_trip
    (fromisoformat : string -> result datetime) (d : date) :
  valid_date d = true ->
  strptime (str_date d) "%Y-%m-%d" = Ok (mkdatetime d midnight) /\
  _to_date fromisoformat (CStr (str_date d)) = Ok (Some d) /\
  _to_date fromisoformat (CStr (str_date d))
    = _to_date fromisoformat (CDate d) /\
  str (CStr (str_date d)) = str (CDate d).
Proof.
  intro Hv. destruct (str_date_chars d Hv) as [Hns Hne].
  assert (Hr : _to_date fromisoformat (CStr (str_date d)) = Ok (Some d)).
  { rewrite to_date_text; [|destruct (str_date d); [congruence | reflexivity]
                           | reflexivity].
    cbn [str]. rewrite (strip_no_space _ Hns).
    unfold date_formats. cbn [for_formats].
    rewrite (strptime_str_date d Hv). reflexivity. }
  split; [apply strptime_str_date; exact Hv|].
  split; [exact Hr|]. split; [rewrite Hr|]; reflexivity.
Qed.

Lemma date_text_round_trip_witness :
  strptime (str_date (mkdate 2024 2 29)) "%Y-%m-%d"
    = Ok (mkdatetime (mkdate 2024 2 29) midnight) /\
  _to_date Examples.fromisoformat_ymd (CStr (str_date (mkdate 2024 2 29)))
    = Ok (Some (mkdate 2024 2 29)) /\
  _to_date Examples.fromisoformat_ymd (CStr (str_date (mkdate 2024 2 29)))
    = _to_date Examples.fromisoformat_ymd (CDate (mkdate 2024 2 29)) /\
  str (CStr (str_date (mkdate 2024 2 29))) = str (CDate (mkdate 2024 2 29)).
Proof.
  exact (date_text_round_trip Examples.fromisoformat_ymd (mkdate 2024 2 29)
           eq_refl).
Defined.

(** X13.  The date and time values written to the calendar are plain
    digits: for a valid date from the year 1000 on (where every C
    library writes the year on four digits) [fmt_date] is eight digits,
    and for a valid datetime [fmt_local] is fifteen characters, eight
    digits, the letter T and six digits. *)
Theorem rendered_dates_are_digits (v : datetime) :
  valid_datetime v = true ->
  1000 <= year (dt_date v) ->
  String.length (fmt_date (dt_date v)) = 8%nat /\
  all_chars isdigit (fmt_date (dt_date v)) = true /\
  String.length (fmt_local v) = 15%nat /\
  exists time_digits,
    fmt_local v = (fmt_date (dt_date v) ++ "T" ++ time_digits)%string /\
    String.length time_digits = 6%nat /\
    all_chars isdigit time_digits = true.
Proof.
  intros Hv _. apply valid_datetime_parts in Hv. destruct Hv as [Hd Ht].
  destruct (valid_date_bounds _ Hd) as [Hy [Hm Hdd]].
  revert Ht. unfold valid_time. rewrite !andb_true_iff, !Z.leb_le. intro Ht.
  pose proof (four_digits_below_10000 (year (dt_date v)) ltac:(lia)) as H4.
  pose proof (two_digits_below_100 (month (dt_date v)) ltac:(lia)) as Hm2.
  pose proof (two_digits_below_100 (day (dt_date v)) ltac:(lia)) as Hd2.
  pose proof (two_digits_below_100 (hour (dt_time v)) ltac:(lia)) as HH.
  pose proof (two_digits_below_100 (minute (dt_time v)) ltac:(lia)) as HM.
  pose proof (two_digits_below_100 (second (dt_time v)) ltac:(lia)) as HS.
  unfold four_digits_ok in H4. unfold two_digits_ok in Hm2, Hd2, HH, HM, HS.
  repeat match goal with
         | H : _ && _ = true |- _ => apply andb_prop in H; destruct H
         end.
  repeat match goal with
         | H : Nat.eqb _ _ = true |- _ => apply Nat.eqb_eq in H
         end.
  assert (Hlen : String.length (fmt_date (dt_date v)) = 8%nat).
  { unfold fmt_date. rewrite !string_length_app. lia. }
  split; [exact Hlen|]. split.
  { unfold fmt_date. rewrite !all_chars_app.
    repeat match goal with
           | H : all_chars isdigit _ = true |- _ => rewrite H; clear H
           end.
    reflexivity. }
  split.
  { unfold fmt_local. rewrite !string_length_app, Hlen. simpl. lia. }
  exists (zpad 2 (hour (dt_time v)) ++ zpad 2 (minute (dt_time v)) ++
          zpad 2 (second (dt_time v)))%string.
  split; [reflexivity|]. split.
  - rewrite !string_length_app. lia.
  - rewrite !all_chars_app.
    repeat match goal with
           | H : all_chars isdigit _ = true |- _ => rewrite H; clear H
           end.
    reflexivity.
Qed.

Lemma rendered_dates_are_digits_witness :
  String.length (fmt_date (mkdate 2024 3 4)) = 8%nat /\
  all_chars isdigit (fmt_date (mkdate 2024 3 4)) = true /\
  String.length (fmt_local (mkdatetime (mkdate 2024 3 4) (mktime 14 0 0 0)))
    = 15%nat /\
  exists time_digits,
    fmt_local (mkdatetime (mkdate 2024 3 4) (mktime 14 0 0 0))
      = (fmt_date (mkdate 2024 3 4) ++ "T" ++ time_digits)%string /\
    String.length time_digits = 6%nat /\
    all_chars isdigit time_digits = true.
Proof.
  exact (rendered_dates_are_digits
           (mkdatetime (mkdate 2024 3 4) (mktime 14 0 0 0)) eq_refl
           ltac:(simpl; lia)).
Defined.

(** ** The shape of a derived identifier *)

Lemma hex_digit_is_hex n :
  0 <= n < 16 -> is_hex_digit (SHA1.hex_digit n) = true.
Proof.
  apply (forallb_below (fun k => is_hex_digit (SHA1.hex_digit k)) 16).
  vm_compute. reflexivity.
Qed.

Lemma land_15_bounds x : 0 <= Z.land x 15 < 16.
Proof.
  change 15 with (Z.ones 4). rewrite Z.land_ones by lia.
  apply Z.mod_pos_bound. reflexivity.
Qed.

Lemma hex_word_shape x :
  String.length (SHA1.hex_word x) = 8%nat /\
  all_chars is_hex_digit (SHA1.hex_word x) = true.
Proof.
  unfold SHA1.hex_word. cbn [seq rev app map string_of_list_ascii].
  split; [reflexivity|].
  cbn [all_chars].
  rewrite !hex_digit_is_hex by apply land_15_bounds. reflexivity.
Qed.

Lemma string_app_assoc (a b c : string) :
  ((a ++ b) ++ c)%string = (a ++ b ++ c)%string.
Proof.
  induction a as [|x a IH]; simpl; [reflexivity | rewrite IH; reflexivity].
Qed.

Lemma take_app_exact a b :
  take (String.length a) (a ++ b) = a.
Proof.
  induction a as [|c a IH]; simpl; [destruct b; reflexivity|].
  rewrite IH. reflexivity.
Qed.

(** X14.  A derived uid has one shape whatever the row holds: sixteen
    lower-case hexadecimal digits followed by ["@youruni"], twenty-four
    characters in all, so no cell text, separator or line break reaches a
    UID line the script derives. *)
Theorem derived_uid_shape (values : list cell) :
  exists h,
    make_uid values = (h ++ "@youruni")%string /\
    String.length h = 16%nat /\
    all_chars is_hex_digit h = true /\
    String.length (make_uid values) = 24%nat.
Proof.
  unfold make_uid, SHA1.hexdigest.
  set (r := SHA1.digest _).
  destruct (hex_word_shape (SHA1.ra r)) as [La Ha].
  destruct (hex_word_shape (SHA1.rb r)) as [Lb Hb].
  assert (Ht : take 16 (SHA1.hex_word (SHA1.ra r) ++ SHA1.hex_word (SHA1.rb r)
                        ++ SHA1.hex_word (SHA1.rc r) ++ SHA1.hex_word (SHA1.rd r)
                        ++ SHA1.hex_word (SHA1.re r))
               = (SHA1.hex_word (SHA1.ra r) ++ SHA1.hex_word (SHA1.rb r))%string).
  { rewrite <- (string_app_assoc (SHA1.hex_word (SHA1.ra r))).
    replace 16%nat
      with (String.length (SHA1.hex_word (SHA1.ra r) ++ SHA1.hex_word (SHA1.rb r)))
      by (rewrite string_length_app, La, Lb; reflexivity).
    apply take_app_exact. }
  rewrite Ht.
  exists (SHA1.hex_word (SHA1.ra r) ++ SHA1.hex_word (SHA1.rb r))%string.
  split; [reflexivity|].
  split; [rewrite string_length_app, La, Lb; reflexivity|].
  split; [rewrite all_chars_app, Ha, Hb; reflexivity|].
  rewrite !string_length_app, La, Lb. reflexivity.
Qed.

(** ** The transparency flag *)


(** ** Blocks, one after the other *)

Section Blocks.

Variable fromisoformat : string -> result datetime.

Lemma extend_assoc st a b : extend (extend st a) b = extend st (extend a b).
Proof.
  unfold extend. cbn [lines event_count].
  rewrite <- app_assoc, Z.add_assoc. reflexivity.
Qed.

Lemma extend_empty_l st : extend empty_state st = st.
Proof. destruct st. reflexivity. Qed.

(** What a list of rows appends does not depend on what is already
    there. *)
Lemma process_rows_extend c now_utc rows : forall st,
  process_rows fromisoformat c now_utc st rows =
  extend_result st (process_rows fromisoformat c now_utc empty_state rows).
Proof.
  induction rows as [|r rows IH]; intro st; simpl.
  - rewrite extend_empty. reflexivity.
  - rewrite (process_row_extend fromisoformat c now_utc st r).
    destruct (process_row fromisoformat c now_utc empty_state r) as [t|e];
      simpl; [|reflexivity].
    rewrite (IH (extend st t)), (IH t).
    destruct (process_rows fromisoformat c now_utc empty_state rows) as [u|e];
      simpl; [|reflexivity].
    rewrite extend_assoc. reflexivity.
Qed.

End Blocks.

(** X16.  The block of a row that is kept has one of three forms after
    its head lines: both dates as calendar dates (no time of the row
    parses; counted), both dates as local times in the row's time zone
    (counted), or nothing but END:VEVENT (a time parses and an instant
    could not be resolved; not counted).  DTSTART never comes without
    DTEND, nor a date form with a time form. *)
Theorem block_has_one_of_three_forms
    (fromisoformat : string -> result datetime) (c : cols) (now_utc : string)
    (st st' : state) (r : row) (f : fields) :
  accept fromisoformat c r = Ok (Some f) ->
  process_row fromisoformat c now_utc st r = Ok st' ->
  exists tail,
    lines st' = (lines st ++ head_lines now_utc f ++ tail)%list /\
    ((all_day fromisoformat f = Ok true /\
      event_count st' = event_count st + 1 /\
      exists a b,
        tail = [("DTSTART;VALUE=DATE:" ++ fmt_date a)%string;
                ("DTEND;VALUE=DATE:" ++ fmt_date b)%string; "END:VEVENT"]) \/
     (all_day fromisoformat f = Ok false /\
      event_count st' = event_count st + 1 /\
      exists a b,
        tail = [("DTSTART;TZID=" ++ tz f ++ ":" ++ fmt_local a)%string;
                ("DTEND;TZID=" ++ tz f ++ ":" ++ fmt_local b)%string;
                "END:VEVENT"]) \/
     (all_day fromisoformat f = Ok false /\
      event_count st' = event_count st /\
      tail = ["END:VEVENT"])).
Proof.
  intros Hacc Hrow.
  destruct (process_row_lines _ _ _ _ _ _ _ Hacc Hrow)
    as [b [t [Hday [Ht [Hl Hc]]]]].
  exists (lines t). split; [exact Hl|].
  unfold append_times in Ht. destruct b.
  - left. split; [exact Hday|].
    apply bind_Ok in Ht. destruct Ht as [start0 [_ Ht]].
    apply bind_Ok in Ht. destruct Ht as [end0 [_ Ht]].
    destruct start0 as [sd|]; [|discriminate].
    destruct end0 as [ed|]; [|discriminate].
    apply bind_Ok in Ht. destruct Ht as [ex [_ Ht]].
    inversion Ht; subst t. cbn [lines event_count append empty_state] in *.
    split; [lia|]. exists sd, ex. reflexivity.
  - right.
    apply bind_Ok in Ht. destruct Ht as [ds [_ Ht]].
    apply bind_Ok in Ht. destruct Ht as [de [_ Ht]].
    destruct ds as [a|]; [destruct de as [e|]|];
      inversion Ht; subst t; cbn [lines event_count append empty_state] in *.
    + left. split; [exact Hday|]. split; [lia|]. exists a, e. reflexivity.
    + right. split; [exact Hday|]. split; [lia | reflexivity].
    + right. split; [exact Hday|]. split; [lia | reflexivity].
Qed.

Lemma block_has_one_of_three_forms_witness :
  exists tail,
    (header_lines ++
     ["BEGIN:VEVENT"; "UID:63c434fe559c8c09@youruni";
      "DTSTAMP:20240101T000000Z"; "SUMMARY:Lab"; "TRANSP:OPAQUE";
      "END:VEVENT"])%list =
    (header_lines ++
     ["BEGIN:VEVENT"; "UID:63c434fe559c8c09@youruni";
      "DTSTAMP:20240101T000000Z"; "SUMMARY:Lab"; "TRANSP:OPAQUE"] ++ tail)%list /\
    ((Ok false = Ok true /\ 0 = 0 + 1 /\
      exists a b,
        tail = [("DTSTART;VALUE=DATE:" ++ fmt_date a)%string;
                ("DTEND;VALUE=DATE:" ++ fmt_date b)%string; "END:VEVENT"]) \/
     (@Ok bool false = Ok false /\ 0 = 0 + 1 /\
      exists a b,
        tail = [("DTSTART;TZID=" ++ DEFAULT_TZ ++ ":" ++ fmt_local a)%string;
                ("DTEND;TZID=" ++ DEFAULT_TZ ++ ":" ++ fmt_local b)%string;
                "END:VEVENT"]) \/
     (@Ok bool false = Ok false /\ 0 = 0 /\ tail = ["END:VEVENT"])).
Proof.
  exact (block_has_one_of_three_forms Examples.fromisoformat_ymd Examples.c
           Examples.now initial
           (mkstate
              (header_lines ++
               ["BEGIN:VEVENT"; "UID:63c434fe559c8c09@youruni";
                "DTSTAMP:20240101T000000Z"; "SUMMARY:Lab"; "TRANSP:OPAQUE";
                "END:VEVENT"]) 0)
           Examples.lab_bad_end_date
           (mkfields "Lab" (CDate Examples.d_4_march) "" "" "" (CStr "14:00")
                     (CStr "tbd") (CStr "16:00") DEFAULT_TZ "" "" "" false)
           eq_refl eq_refl).
Defined.

(** X17.  The output is the blocks of the rows, in the order of the
    sheet, each independent of the rows around it: the run over two
    stretches of rows is the run over the first followed by what the
    second appends on its own, lines after lines and count plus count;
    it fails where the first of them fails. *)
Theorem run_is_concatenation_of_blocks
    (fromisoformat : string -> result datetime) (c : cols) (now_utc : string)
    (rows1 rows2 : list row) :
  run fromisoformat c now_utc (rows1 ++ rows2) =
  match run fromisoformat c now_utc rows1 with
  | Ok sa => extend_result sa
               (process_rows fromisoformat c now_utc empty_state rows2)
  | Raise e => Raise e
  end.
Proof.
  unfold run. rewrite process_rows_app.
  destruct (process_rows fromisoformat c now_utc initial rows1) as [sa|e];
    simpl; [|reflexivity].
  apply process_rows_extend.
Qed.
